(** * ai-pr-helper: diff parser, complexity analyzer and hunk orchestrator

    A shallow embedding of
      - [src/parsers/diff.ts]        (parseDiff, convertHunk),
      - [src/analyzers/complexity.ts] (metrics, flags, score),
      - [dist/index.js]              (analyzeHunk and the review loop),
    together with the properties the specification states about them.

    Modelling conventions.
      - A JavaScript string is a [string]: a sequence of 8-bit code units
        (the Latin-1 range of UTF-16).  Every character the code tests for is
        ASCII; the only non-ASCII unit treated specially is U+00A0, which
        [trim] and [\s] count as white space.
      - Integral JavaScript numbers are [Z] (exact below 2^53); a number that
        may be NaN is a [jsnum]; the complexity score, the one quantity the
        code computes with fractions, is a binary64 [float].
      - Regular expressions are kept as syntax ([regex]) and run by a
        backtracking matcher that follows the ECMAScript order of choices:
        greedy quantifiers, left alternative first, leftmost start first. *)

From Stdlib Require Import String Ascii List ZArith QArith Floats Lia Bool Arith PeanoNat.
Import ListNotations.
Local Close Scope Q_scope.
Local Open Scope string_scope.

(* ================================================================== *)
(** ** Characters and strings *)

Module Js.

Definition code (c : ascii) : nat := nat_of_ascii c.

Definition LF : ascii := ascii_of_nat 10.

Definition isDigit (c : ascii) : bool :=
  (48 <=? code c)%nat && (code c <=? 57)%nat.

Definition isUpper (c : ascii) : bool :=
  (65 <=? code c)%nat && (code c <=? 90)%nat.

Definition isLower (c : ascii) : bool :=
  (97 <=? code c)%nat && (code c <=? 122)%nat.

(** [\w] *)
Definition isWordChar (c : ascii) : bool :=
  isDigit c || isUpper c || isLower c || (code c =? 95)%nat.

(** [\s], and the units removed by [trim]: TAB LF VT FF CR SP NBSP. *)
Definition isWhiteSpace (c : ascii) : bool :=
  ((9 <=? code c)%nat && (code c <=? 13)%nat)
  || (code c =? 32)%nat || (code c =? 160)%nat.

(** Line terminators: [.] does not match them, [^] (flag m) follows them. *)
Definition isLineTerminator (c : ascii) : bool :=
  (code c =? 10)%nat || (code c =? 13)%nat.

(** [s.startsWith(p)] *)
Definition startsWith (p s : string) : bool := String.prefix p s.

(** [s.substring(1)] *)
Definition substring1 (s : string) : string :=
  match s with
  | EmptyString => EmptyString
  | String _ s' => s'
  end.

(** [s.split('\n')] *)
Fixpoint split_nl (s : string) : list string :=
  match s with
  | EmptyString => [EmptyString]
  | String c s' =>
      if Ascii.eqb c LF then EmptyString :: split_nl s'
      else match split_nl s' with
           | l :: ls => String c l :: ls
           | [] => [String c EmptyString]
           end
  end.

(** [ls.join('\n')] *)
Definition join_nl (ls : list string) : string :=
  String.concat (String LF EmptyString) ls.

Fixpoint trimStart (s : string) : string :=
  match s with
  | EmptyString => EmptyString
  | String c s' => if isWhiteSpace c then trimStart s' else s
  end.

(** [s.trimEnd()]: a unit is dropped when it is white space and everything
    after it was dropped. *)
Fixpoint trimEnd (s : string) : string :=
  match s with
  | EmptyString => EmptyString
  | String c s' =>
      match trimEnd s' with
      | EmptyString => if isWhiteSpace c then EmptyString
                       else String c EmptyString
      | t => String c t
      end
  end.

(** [s.trim()] *)
Definition trim (s : string) : string := trimEnd (trimStart s).

(** Truthiness of a string: non-empty. *)
Definition truthy (s : string) : bool :=
  match s with
  | EmptyString => false
  | String _ _ => true
  end.

(** [s.includes(p)] *)
Fixpoint includes (p s : string) : bool :=
  startsWith p s ||
  match s with
  | EmptyString => false
  | String _ s' => includes p s'
  end.

(** A number that may be NaN.  [Int z] stands for the binary64 number equal
    to [z]: the integers of absolute value up to 2^53, which binary64 holds
    exactly.  [parseInt], [jsadd] and [jssub] compute on [Z] without
    rounding, so they are the code's operations as long as their arguments
    and results stay in that range; a statement that reads a value off them
    carries the bound. *)
Inductive jsnum : Type :=
| NaN
| Int (z : Z).

Definition jsadd (a b : jsnum) : jsnum :=
  match a, b with
  | Int x, Int y => Int (x + y)
  | _, _ => NaN
  end.

Definition jssub (a b : jsnum) : jsnum :=
  match a, b with
  | Int x, Int y => Int (x - y)
  | _, _ => NaN
  end.

(** [a >= b]; false as soon as one side is NaN. *)
Definition jsge (a b : jsnum) : bool :=
  match a, b with
  | Int x, Int y => (y <=? x)%Z
  | _, _ => false
  end.

Definition digitVal (c : ascii) : Z := Z.of_nat (code c) - 48.

Fixpoint digitsVal (acc : Z) (s : string) : Z :=
  match s with
  | EmptyString => acc
  | String c s' =>
      if isDigit c then digitsVal (10 * acc + digitVal c) s' else acc
  end.

(** [parseInt(s, 10)]: leading white space, an optional sign, then the
    longest run of decimal digits; NaN when that run is empty.  The value is
    the one of the digits, which is the code's result up to 2^53. *)
Definition parseInt (s : string) : jsnum :=
  let t := trimStart s in
  let '(neg, u) :=
    match t with
    | String c t' =>
        if Ascii.eqb c "-" then (true, t')
        else if Ascii.eqb c "+" then (false, t')
        else (false, t)
    | EmptyString => (false, t)
    end in
  match u with
  | String d _ =>
      if isDigit d
      then Int (if neg then - digitsVal 0 u else digitsVal 0 u)
      else NaN
  | EmptyString => NaN
  end.

End Js.

(* ================================================================== *)
(** ** Regular expressions *)

Module Re.
Import Js.

Inductive regex : Type :=
| Eps
| Chr (c : ascii)
| Cls (f : ascii -> bool)
| Seq (r1 r2 : regex)
| Alt (r1 r2 : regex)
| Star (r : regex)
| Group (i : nat) (r : regex)
| WordB
| Bol.

Definition Plus (r : regex) : regex := Seq r (Star r).
Definition Opt (r : regex) : regex := Alt r Eps.

Fixpoint Lit (s : string) : regex :=
  match s with
  | EmptyString => Eps
  | String c EmptyString => Chr c
  | String c s' => Seq (Chr c) (Lit s')
  end.

Fixpoint seqs (rs : list regex) : regex :=
  match rs with
  | [] => Eps
  | [r] => r
  | r :: rs' => Seq r (seqs rs')
  end.

Definition digit : regex := Cls isDigit.                      (* \d *)
Definition space : regex := Cls isWhiteSpace.                 (* \s *)
Definition word : regex := Cls isWordChar.                    (* \w *)
Definition dot : regex := Cls (fun c => negb (isLineTerminator c)).  (* . *)
Definition notChr (x : ascii) : regex :=
  Cls (fun c => negb (Ascii.eqb c x)).                        (* [^x] *)

(** A position in the subject: the unit just before it and what is left. *)
Record pos : Type := mkpos { prev : option ascii; rest : string }.

Definition caps : Type := list (nat * string).

Fixpoint capture (i : nat) (cs : caps) : option string :=
  match cs with
  | [] => None
  | (j, s) :: cs' => if (i =? j)%nat then Some s else capture i cs'
  end.

Fixpoint take (n : nat) (s : string) : string :=
  match n, s with
  | S n', String c s' => String c (take n' s')
  | _, _ => EmptyString
  end.

(** The text between two positions of the same subject. *)
Definition consumed (p p' : pos) : string :=
  take (String.length (rest p) - String.length (rest p')) (rest p).

Definition isWordOpt (o : option ascii) : bool :=
  match o with
  | Some c => isWordChar c
  | None => false
  end.

Definition next (p : pos) : option ascii :=
  match rest p with
  | EmptyString => None
  | String c _ => Some c
  end.

Definition result : Type := (pos * caps)%type.
Definition cont : Type := pos -> caps -> option result.

(** The iteration of a greedy [r*], given the matcher of [r]: try one more
    [r] and loop, else go on with [k].  As in ECMAScript an iteration that
    consumes nothing is refused; the counter starts at the length of what is
    left, so it never cuts a match short. *)
Definition starLoop (m1 : pos -> caps -> cont -> option result) (k : cont)
  : nat -> pos -> caps -> option result :=
  fix loop (n : nat) (p : pos) (cs : caps) {struct n} : option result :=
    match n with
    | O => k p cs
    | S n' =>
        match m1 p cs
                (fun p' cs' =>
                   if (String.length (rest p') <? String.length (rest p))%nat
                   then loop n' p' cs' else None) with
        | Some x => Some x
        | None => k p cs
        end
    end.

(** Backtracking matcher in continuation style. *)
Fixpoint rmatch (r : regex) (p : pos) (cs : caps) (k : cont) {struct r}
  : option result :=
  match r with
  | Eps => k p cs
  | Chr c =>
      match rest p with
      | String a s => if Ascii.eqb a c then k (mkpos (Some a) s) cs else None
      | EmptyString => None
      end
  | Cls f =>
      match rest p with
      | String a s => if f a then k (mkpos (Some a) s) cs else None
      | EmptyString => None
      end
  | Seq r1 r2 => rmatch r1 p cs (fun p' cs' => rmatch r2 p' cs' k)
  | Alt r1 r2 =>
      match rmatch r1 p cs k with
      | Some x => Some x
      | None => rmatch r2 p cs k
      end
  | Star r1 => starLoop (rmatch r1) k (String.length (rest p)) p cs
  | Group i r1 =>
      rmatch r1 p cs (fun p' cs' => k p' ((i, consumed p p') :: cs'))
  | WordB =>
      if xorb (isWordOpt (prev p)) (isWordOpt (next p)) then k p cs else None
  | Bol =>
      match prev p with
      | None => k p cs
      | Some c => if isLineTerminator c then k p cs else None
      end
  end.

Definition accept : cont := fun p cs => Some (p, cs).

(** Match anchored at one position. *)
Definition matchAt (r : regex) (p : pos) : option result :=
  rmatch r p [] accept.

(** [s.match(r)] for a regex without flag g: the leftmost match. *)
Fixpoint searchFrom (r : regex) (pv : option ascii) (s : string)
  : option result :=
  match matchAt r (mkpos pv s) with
  | Some x => Some x
  | None =>
      match s with
      | EmptyString => None
      | String a s' => searchFrom r (Some a) s'
      end
  end.

Definition search (r : regex) (s : string) : option caps :=
  match searchFrom r None s with
  | Some (_, cs) => Some cs
  | None => None
  end.

(** All matches of a regex with flag g, left to right without overlap
    ([s.match(r)] with g, or repeated [r.exec(s)]).  [skip] counts the units
    still covered by the previous match; an empty match advances by one. *)
Fixpoint matchesFrom (r : regex) (skip : nat) (pv : option ascii) (s : string)
  : list caps :=
  match skip with
  | S k =>
      match s with
      | EmptyString => []
      | String a s' => matchesFrom r k (Some a) s'
      end
  | O =>
      match matchAt r (mkpos pv s) with
      | Some (p', cs) =>
          cs :: match s with
                | EmptyString => []
                | String a s' =>
                    matchesFrom r
                      (String.length s - String.length (rest p') - 1)
                      (Some a) s'
                end
      | None =>
          match s with
          | EmptyString => []
          | String a s' => matchesFrom r 0 (Some a) s'
          end
      end
  end.

Definition matches (r : regex) (s : string) : list caps :=
  matchesFrom r 0 None s.

(** [(s.match(r) || []).length] for a regex with flag g. *)
Definition countMatches (r : regex) (s : string) : nat :=
  List.length (matches r s).

End Re.

(* ================================================================== *)
(** ** The diff parser ([src/parsers/diff.ts]) *)

Module DiffHunk.
Record t : Type := mk {
  filename : string;
  startLine : Js.jsnum;
  endLine : Js.jsnum;
  content : string;
  additions : list string;
  deletions : list string;
  context : string
}.
End DiffHunk.

Module DiffFile.
Record t : Type := mk {
  filename : string;
  hunks : list DiffHunk.t;
  additions : nat;
  deletions : nat
}.
End DiffFile.

Module Diff.
Import Js Re.

Record RawHunk : Type := mkRaw {
  oldStart : jsnum;
  oldLines : jsnum;
  newStart : jsnum;
  newLines : jsnum;
  lines : list string
}.

(** [/diff --git a\/(.+) b\/(.+)/] *)
Definition fileHeaderRe : regex :=
  seqs [Lit "diff --git a/"; Group 1 (Plus dot); Lit " b/"; Group 2 (Plus dot)].

(** [/@@ -(\d+)(?:,(\d+))? \+(\d+)(?:,(\d+))? @@/] *)
Definition hunkHeaderRe : regex :=
  seqs [Lit "@@ -"; Group 1 (Plus digit);
        Opt (Seq (Chr ",") (Group 2 (Plus digit)));
        Lit " +"; Group 3 (Plus digit);
        Opt (Seq (Chr ",") (Group 4 (Plus digit)));
        Lit " @@"].

(** [line.startsWith('+') && !line.startsWith('+++')] *)
Definition isAddition (line : string) : bool :=
  startsWith "+" line && negb (startsWith "+++" line).

(** [line.startsWith('-') && !line.startsWith('---')] *)
Definition isDeletion (line : string) : bool :=
  startsWith "-" line && negb (startsWith "---" line).

(** [line.startsWith(' ') || line === ''] *)
Definition isContext (line : string) : bool :=
  startsWith " " line || String.eqb line "".

(** The three arrays [convertHunk] fills, in the order
    (additions, deletions, contentLines). *)
Definition buckets : Type := (list string * list string * list string)%type.

(** One iteration of the loop of [convertHunk]. *)
Definition pushLine (acc : buckets) (line : string) : buckets :=
  let '(adds, dels, cont) := acc in
  if isAddition line then ((adds ++ [substring1 line])%list, dels, (cont ++ [line])%list)
  else if isDeletion line then (adds, (dels ++ [substring1 line])%list, (cont ++ [line])%list)
  else if isContext line then (adds, dels, (cont ++ [line])%list)
  else (adds, dels, cont).

Definition convertHunk (raw : RawHunk) (filename : string) : DiffHunk.t :=
  let '(adds, dels, cont) := fold_left pushLine (lines raw) ([], [], []) in
  {| DiffHunk.filename := filename;
     DiffHunk.startLine := newStart raw;
     DiffHunk.endLine := jssub (jsadd (newStart raw) (newLines raw)) (Int 1);
     DiffHunk.content := join_nl cont;
     DiffHunk.additions := adds;
     DiffHunk.deletions := dels;
     DiffHunk.context := "" |}.

(** [match[i] ? parseInt(match[i], 10) : 1] *)
Definition countOr1 (o : option string) : jsnum :=
  match o with
  | Some s => if truthy s then parseInt s else Int 1
  | None => Int 1
  end.

(** The header match and the raw hunk built from it (lines 65-74). *)
Definition parseHunkHeader (line : string) : option RawHunk :=
  match search hunkHeaderRe line with
  | Some cs =>
      Some {| oldStart := parseInt (match capture 1 cs with Some s => s | None => "" end);
              oldLines := countOr1 (capture 2 cs);
              newStart := parseInt (match capture 3 cs with Some s => s | None => "" end);
              newLines := countOr1 (capture 4 cs);
              lines := [] |}
  | None => None
  end.

(** [match ? match[2] : 'unknown'] *)
Definition headerFilename (line : string) : string :=
  match search fileHeaderRe line with
  | Some cs => match capture 2 cs with Some s => s | None => "unknown" end
  | None => "unknown"
  end.

(** The mutable variables of [parseDiff]. *)
Record state : Type := mkState {
  files : list DiffFile.t;
  currentFile : option DiffFile.t;
  currentHunk : option RawHunk
}.

Definition initial : state :=
  {| files := []; currentFile := None; currentHunk := None |}.

Definition pushHunk (f : DiffFile.t) (h : DiffHunk.t) : DiffFile.t :=
  {| DiffFile.filename := DiffFile.filename f;
     DiffFile.hunks := (DiffFile.hunks f ++ [h])%list;
     DiffFile.additions := DiffFile.additions f;
     DiffFile.deletions := DiffFile.deletions f |}.

(** [if (currentFile && currentHunk) currentFile.hunks.push(convertHunk(...))] *)
Definition closeHunk (cf : option DiffFile.t) (ch : option RawHunk)
  : option DiffFile.t :=
  match cf, ch with
  | Some f, Some h => Some (pushHunk f (convertHunk h (DiffFile.filename f)))
  | _, _ => cf
  end.

(** [if (currentFile) files.push(currentFile)] *)
Definition closeFile (fs : list DiffFile.t) (cf : option DiffFile.t)
  : list DiffFile.t :=
  match cf with
  | Some f => (fs ++ [f])%list
  | None => fs
  end.

(** The counter updates of lines 83-89. *)
Definition countLine (line : string) (f : DiffFile.t) : DiffFile.t :=
  if isAddition line then
    {| DiffFile.filename := DiffFile.filename f;
       DiffFile.hunks := DiffFile.hunks f;
       DiffFile.additions := S (DiffFile.additions f);
       DiffFile.deletions := DiffFile.deletions f |}
  else if isDeletion line then
    {| DiffFile.filename := DiffFile.filename f;
       DiffFile.hunks := DiffFile.hunks f;
       DiffFile.additions := DiffFile.additions f;
       DiffFile.deletions := S (DiffFile.deletions f) |}
  else f.

Definition pushRaw (h : RawHunk) (line : string) : RawHunk :=
  {| oldStart := oldStart h; oldLines := oldLines h;
     newStart := newStart h; newLines := newLines h;
     lines := (lines h ++ [line])%list |}.

(** [line.startsWith('+') || line.startsWith('-') || line.startsWith(' ')
     || line === ''] *)
Definition isContentLine (line : string) : bool :=
  startsWith "+" line || startsWith "-" line || startsWith " " line
  || String.eqb line "".

(** One iteration of the [while] loop. *)
Definition step (st : state) (line : string) : state :=
  if startsWith "diff --git" line then
    let cf := closeHunk (currentFile st) (currentHunk st) in
    {| files := closeFile (files st) cf;
       currentFile := Some {| DiffFile.filename := headerFilename line;
                              DiffFile.hunks := [];
                              DiffFile.additions := 0;
                              DiffFile.deletions := 0 |};
       currentHunk := None |}
  else if startsWith "index " line || startsWith "---" line
          || startsWith "+++" line then st
  else if startsWith "@@" line then
    {| files := files st;
       currentFile := closeHunk (currentFile st) (currentHunk st);
       currentHunk := match parseHunkHeader line with
                      | Some raw => Some raw
                      | None => currentHunk st
                      end |}
  else
    match currentHunk st with
    | Some h =>
        if isContentLine line then
          {| files := files st;
             currentFile := option_map (countLine line) (currentFile st);
             currentHunk := Some (pushRaw h line) |}
        else st
    | None => st
    end.

(** The flush after the loop (lines 96-101). *)
Definition finish (st : state) : list DiffFile.t :=
  closeFile (files st) (closeHunk (currentFile st) (currentHunk st)).

Definition parseLines (ls : list string) : list DiffFile.t :=
  finish (fold_left step ls initial).

(** [parseDiff(diffText).files] *)
Definition parseDiff (diffText : string) : list DiffFile.t :=
  parseLines (split_nl diffText).

End Diff.

(* ================================================================== *)
(** ** IEEE-754 doubles

    The complexity score is the one place where the code leaves the integers:
    it divides, averages and rounds in binary64.  Those operations are the
    primitive floats of the kernel. *)

Module Double.

(** The double nearest to an integer (exact below 2^53). *)
Definition of_Z (z : Z) : float :=
  SF2Prim (binary_normalize prec emax z 0 false).

(** [Math.min(a, b)] *)
Definition min (a b : float) : float :=
  if (PrimFloat.is_nan a || PrimFloat.is_nan b)%bool then nan
  else if PrimFloat.ltb b a then b
  else if PrimFloat.ltb a b then a
  else if PrimFloat.get_sign a then a else b.

(** [Math.round(x)]: the closest integral double, a tie going up. *)
Definition round (x : float) : float :=
  match Prim2SF x with
  | S754_finite s m e =>
      if (0 <=? e)%Z then x
      else
        let d := Z.pow 2 (- e) in
        let v := if s then Z.neg m else Z.pos m in
        let r := Z.div (2 * v + d) (2 * d) in
        if (r =? 0)%Z then (if s then (-0)%float else 0%float) else of_Z r
  | _ => x
  end.

End Double.

(* ================================================================== *)
(** ** The complexity analyzer ([src/analyzers/complexity.ts]) *)

Module Complexity.
Import Js Re.
Local Open Scope Z_scope.

Inductive metric : Type :=
| nestingDepth
| cyclomaticComplexity
| parameterCount
| lineCount
| dependencyCount.

(** [ComplexityMetrics] and [ComplexityThresholds] (declared in the missing
    [src/types.ts]): one integer per metric.  [metrics[name]] is
    application. *)
Definition ComplexityMetrics : Type := metric -> Z.
Definition ComplexityThresholds : Type := metric -> Z.

Definition mkMetrics (nd cc pc lc dc : Z) : metric -> Z :=
  fun m =>
    match m with
    | nestingDepth => nd
    | cyclomaticComplexity => cc
    | parameterCount => pc
    | lineCount => lc
    | dependencyCount => dc
    end.

Inductive severity : Type := warning | critical.

Module ComplexityFlag.
Record t : Type := mk {
  metric : Complexity.metric;
  value : Z;
  threshold : Z;
  severity : Complexity.severity
}.
End ComplexityFlag.

(** *** calculateNestingDepth *)

(** The loop body, on the pair (maxDepth, currentDepth). *)
Definition nestingStep (st : Z * Z) (char : ascii) : Z * Z :=
  let '(maxDepth, currentDepth) := st in
  if Ascii.eqb char "{" then
    (Z.max maxDepth (currentDepth + 1), currentDepth + 1)
  else if Ascii.eqb char "}" then
    (maxDepth, Z.max 0 (currentDepth - 1))
  else st.

Definition calculateNestingDepth (code : string) : Z :=
  fst (fold_left nestingStep (list_ascii_of_string code) (0, 0)).

(** *** calculateCyclomaticComplexity *)

Definition patterns : list regex :=
  [ seqs [WordB; Lit "if"; Star space; Chr "("];                   (* /\bif\s*\(/g *)
    seqs [WordB; Lit "else"; Plus space; Lit "if"; Star space; Chr "("];
                                                                   (* /\belse\s+if\s*\(/g *)
    seqs [WordB; Lit "for"; Star space; Chr "("];                  (* /\bfor\s*\(/g *)
    seqs [WordB; Lit "while"; Star space; Chr "("];                (* /\bwhile\s*\(/g *)
    seqs [WordB; Lit "case"; Plus space];                          (* /\bcase\s+/g *)
    seqs [WordB; Lit "catch"; Star space; Chr "("];                (* /\bcatch\s*\(/g *)
    seqs [Chr "?"; Star space; notChr ":"];                        (* /\?\s*[^:]/g *)
    Lit "&&";                                                      (* /&&/g *)
    Lit "||";                                                      (* /\|\|/g *)
    Lit "??" ].                                                    (* /\?\?/g *)

Definition calculateCyclomaticComplexity (code : string) : Z :=
  fold_left (fun complexity pattern =>
               complexity + Z.of_nat (countMatches pattern code))
            patterns 1.

(** *** calculateMaxParameters *)

(** The loop body of [countParameters], on (depth, count, hasContent). *)
Definition paramStep (st : Z * Z * bool) (char : ascii) : Z * Z * bool :=
  let '(depth, count, hasContent) := st in
  if (Ascii.eqb char "<" || Ascii.eqb char "{" || Ascii.eqb char "["
      || Ascii.eqb char "(")%bool then (depth + 1, count, hasContent)
  else if (Ascii.eqb char ">" || Ascii.eqb char "}" || Ascii.eqb char "]"
           || Ascii.eqb char ")")%bool then (depth - 1, count, hasContent)
  else if (Ascii.eqb char "," && (depth =? 0))%bool then
    (depth, (if hasContent then count + 1 else count), false)
  else if negb (isWhiteSpace char) then (depth, count, true)
  else st.

Definition countParameters (params : string) : Z :=
  let '(_, count, hasContent) :=
    fold_left paramStep (list_ascii_of_string params) (0, 0, false) in
  if hasContent then count + 1 else count.

(** The parenthesised parameter list shared by the three patterns: an opening
    parenthesis, group 1 = the longest run of units other than a closing
    parenthesis, a closing parenthesis. *)
Definition paramList : regex :=
  seqs [Chr "("; Group 1 (Star (notChr ")")); Chr ")"].

(** In source order: [function\s*\w*\s*] + list; list + [\s*=>];
    [\w+\s*] + list + [\s*{]; all with flag g. *)
Definition funcPatterns : list regex :=
  [ seqs [Lit "function"; Star space; Star word; Star space; paramList];
    seqs [paramList; Star space; Lit "=>"];
    seqs [Plus word; Star space; paramList; Star space; Chr "{"] ].

(** The body of the [while] loop over [pattern.exec]. *)
Definition paramsOf (maxParams : Z) (cs : caps) : Z :=
  match capture 1 cs with
  | Some params =>
      if truthy (trim params) then Z.max maxParams (countParameters params)
      else maxParams
  | None => maxParams
  end.

Definition calculateMaxParameters (code : string) : Z :=
  fold_left (fun maxParams pattern =>
               fold_left paramsOf (matches pattern code) maxParams)
            funcPatterns 0.

(** *** calculateLineCount *)

(** The loop body, on (count, inBlockComment). *)
Definition lineStep (st : Z * bool) (line : string) : Z * bool :=
  let '(count, inBlockComment) := st in
  let trimmed := trim line in
  if negb (truthy trimmed) then st
  else
    let inBlockComment :=
      if startsWith "/*" trimmed then true else inBlockComment in
    if inBlockComment then
      (count, if includes "*/" trimmed then false else inBlockComment)
    else if startsWith "//" trimmed then (count, inBlockComment)
    else (count + 1, inBlockComment).

Definition calculateLineCount (code : string) : Z :=
  fst (fold_left lineStep (split_nl code) (0, false)).

(** *** calculateDependencyCount *)

Definition importPattern : regex := seqs [Bol; Lit "import"; Plus space].
                                                        (* /^import\s+/gm *)
Definition requirePattern : regex := seqs [Lit "require"; Star space; Chr "("].
                                                        (* /require\s*\(/g *)

Definition calculateDependencyCount (code : string) : Z :=
  Z.of_nat (countMatches importPattern code)
  + Z.of_nat (countMatches requirePattern code).

Definition calculateMetrics (code : string) : ComplexityMetrics :=
  mkMetrics (calculateNestingDepth code)
            (calculateCyclomaticComplexity code)
            (calculateMaxParameters code)
            (calculateLineCount code)
            (calculateDependencyCount code).

(** *** checkThresholds *)

(** The order of the [checks] array. *)
Definition checks : list metric :=
  [nestingDepth; cyclomaticComplexity; parameterCount; lineCount;
   dependencyCount].

(** [a > b] on rationals. *)
Definition Qgtb (a b : Q) : bool := negb (Qle_bool a b).

(** [value > threshold * 1.5]: on integers below 2^51 in absolute value the
    double product is exact, so the comparison is the one on rationals; the
    statements about it carry that bound. *)
Definition severityOf (value threshold : Z) : severity :=
  if Qgtb (inject_Z value) (inject_Z threshold * 1.5)%Q then critical
  else warning.

(** The loop body of [checkThresholds]. *)
Definition checkStep (metrics : ComplexityMetrics)
    (thresholds : ComplexityThresholds)
    (flags : list ComplexityFlag.t) (m : metric) : list ComplexityFlag.t :=
  let value := metrics m in
  let threshold := thresholds m in
  if (value >? threshold)%Z then
    (flags ++ [ {| ComplexityFlag.metric := m;
                   ComplexityFlag.value := value;
                   ComplexityFlag.threshold := threshold;
                   ComplexityFlag.severity := severityOf value threshold |} ])%list
  else flags.

Definition checkThresholds (metrics : ComplexityMetrics)
    (thresholds : ComplexityThresholds) : list ComplexityFlag.t :=
  fold_left (checkStep metrics thresholds) checks [].

(** *** calculateScore *)

Definition normalize (value threshold : Z) : float :=
  let ratio := (Double.of_Z value / Double.of_Z threshold)%float in
  Double.min 2%float ratio.

Definition calculateScore (metrics : ComplexityMetrics)
    (thresholds : ComplexityThresholds) : float :=
  let scores := map (fun m => normalize (metrics m) (thresholds m)) checks in
  let avg := (fold_left PrimFloat.add scores 0
              / Double.of_Z (Z.of_nat (List.length scores)))%float in
  (Double.round (avg * 5 * 10) / 10)%float.

(** *** generateSuggestions

    A suggestion is kept as the data its sentence is built from; the wording
    of the sentence plays no part below. *)
Inductive suggestion : Type :=
| ReduceDepth (value threshold : Z)
| SplitDecisions (value : Z)
| FewerParameters (value : Z)
| ExtractFunctions (value parts : Z)   (* parts = Math.ceil(value / 30) *)
| FewerImports (value : Z)
| SingleErrorBoundary (catchCount : nat).

Definition suggestionOf (flag : ComplexityFlag.t) : suggestion :=
  let v := ComplexityFlag.value flag in
  match ComplexityFlag.metric flag with
  | nestingDepth => ReduceDepth v (ComplexityFlag.threshold flag)
  | cyclomaticComplexity => SplitDecisions v
  | parameterCount => FewerParameters v
  | lineCount => ExtractFunctions v (- ((- v) / 30))
  | dependencyCount => FewerImports v
  end.

Definition generateSuggestions (metrics : ComplexityMetrics)
    (flags : list ComplexityFlag.t) (code : string) : list suggestion :=
  let suggestions := map suggestionOf flags in
  if (includes "try" code && includes "catch" code)%bool then
    let catchCount := countMatches (Lit "catch") code in
    if (2 <? catchCount)%nat
    then (suggestions ++ [SingleErrorBoundary catchCount])%list
    else suggestions
  else suggestions.

Module ComplexityAnalysis.
Record t : Type := mk {
  score : float;
  metrics : ComplexityMetrics;
  flags : list ComplexityFlag.t;
  suggestions : list suggestion
}.
End ComplexityAnalysis.

Definition analyzeComplexity (code : string)
    (thresholds : ComplexityThresholds) : ComplexityAnalysis.t :=
  let metrics := calculateMetrics code in
  let flags := checkThresholds metrics thresholds in
  let score := calculateScore metrics thresholds in
  let suggestions := generateSuggestions metrics flags code in
  {| ComplexityAnalysis.score := score;
     ComplexityAnalysis.metrics := metrics;
     ComplexityAnalysis.flags := flags;
     ComplexityAnalysis.suggestions := suggestions |}.

End Complexity.

(* ================================================================== *)
(** ** The orchestrator ([dist/index.js]: analyzeHunk and the review loop) *)

Module Review.
Import Js Complexity.

(** Modelled from the spec: the records of [src/types.ts], which is not among
    the sources; the fields are the ones section 3 lists and the code reads
    and writes. *)
Module SummaryAnalysis.
Record t : Type := mk {
  what : string;
  why : string;
  watch : list string
}.
End SummaryAnalysis.

Module PatternFinding.
Record t : Type := mk {
  type : string;
  lines : list Z;
  issue : string;
  simplerAlternative : option string
}.
End PatternFinding.

Module PatternAnalysis.
Record t : Type := mk {
  patternsFound : list PatternFinding.t;
  overallAiLikelihood : string;
  keyQuestion : option string
}.
End PatternAnalysis.

Module HunkAnalysis.
Record t : Type := mk {
  hunk : DiffHunk.t;
  summary : option SummaryAnalysis.t;
  patterns : option PatternAnalysis.t;
  complexity : option ComplexityAnalysis.t;
  processingTime : Z
}.
End HunkAnalysis.

Module FileAnalysis.
Record t : Type := mk {
  filename : string;
  hunks : list HunkAnalysis.t;
  overallComplexity : float
}.
End FileAnalysis.

Inductive likelihood : Type := low | medium | high.

Module ReviewResult.
Record t : Type := mk {
  files : list FileAnalysis.t;
  totalHunks : Z;
  totalProcessingTime : Z;
  aiCodeLikelihood : likelihood
}.
End ReviewResult.

(** The options [analyzeHunk] and the loop read. *)
Module Options.
Record t : Type := mk {
  summary : bool;
  patterns : bool;
  complexity : bool;
  model : string;
  maxHunks : string
}.
End Options.

(** What a call gives back: a value, or an exception. *)
Inductive outcome (E A : Type) : Type :=
| Returned (a : A)
| Thrown (e : E).
Arguments Returned {E A} a.
Arguments Thrown {E A} e.

(** The world outside the process: the clock and the External Reviewer
    ([dist/api/claude.js]: a network call whose answer is decoded from JSON).
    Each awaited call either returns or throws, and moves the world on.
    [thresholds] stands for [DEFAULT_CONFIG.complexityThresholds] of the
    missing [src/types.ts]. *)
Class External : Type := mkExternal {
  World : Type;
  Exn : Type;
  now : World -> Z * World;
  generateSummary :
    string -> string -> string -> string ->
    World -> outcome Exn SummaryAnalysis.t * World;
  detectPatterns :
    string -> string -> string ->
    World -> outcome Exn PatternAnalysis.t * World;
  thresholds : ComplexityThresholds
}.

Section Orchestrator.
Context {ext : External}.

(** Computations that read the world and may throw. *)
Definition M (A : Type) : Type := World -> outcome Exn A * World.

Definition ret {A : Type} (a : A) : M A := fun w => (Returned a, w).

Definition bind {A B : Type} (m : M A) (f : A -> M B) : M B :=
  fun w =>
    match m w with
    | (Returned a, w') => f a w'
    | (Thrown e, w') => (Thrown e, w')
    end.

(** [try { m } catch (e) { h(e) }] *)
Definition try_catch {A : Type} (m : M A) (h : Exn -> M A) : M A :=
  fun w =>
    match m w with
    | (Returned a, w') => (Returned a, w')
    | (Thrown e, w') => h e w'
    end.

(** [Date.now()] *)
Definition dateNow : M Z := fun w => let '(t, w') := now w in (Returned t, w').

Notation "x <- m ;; k" := (bind m (fun x => k))
  (at level 61, m at next level, right associativity).

Definition emptyAnalysis (hunk : DiffHunk.t) : HunkAnalysis.t :=
  {| HunkAnalysis.hunk := hunk;
     HunkAnalysis.summary := None;
     HunkAnalysis.patterns := None;
     HunkAnalysis.complexity := None;
     HunkAnalysis.processingTime := 0%Z |}.

Definition setComplexity (c : ComplexityAnalysis.t) (r : HunkAnalysis.t) :=
  {| HunkAnalysis.hunk := HunkAnalysis.hunk r;
     HunkAnalysis.summary := HunkAnalysis.summary r;
     HunkAnalysis.patterns := HunkAnalysis.patterns r;
     HunkAnalysis.complexity := Some c;
     HunkAnalysis.processingTime := HunkAnalysis.processingTime r |}.

Definition setSummary (s : SummaryAnalysis.t) (r : HunkAnalysis.t) :=
  {| HunkAnalysis.hunk := HunkAnalysis.hunk r;
     HunkAnalysis.summary := Some s;
     HunkAnalysis.patterns := HunkAnalysis.patterns r;
     HunkAnalysis.complexity := HunkAnalysis.complexity r;
     HunkAnalysis.processingTime := HunkAnalysis.processingTime r |}.

Definition setPatterns (p : PatternAnalysis.t) (r : HunkAnalysis.t) :=
  {| HunkAnalysis.hunk := HunkAnalysis.hunk r;
     HunkAnalysis.summary := HunkAnalysis.summary r;
     HunkAnalysis.patterns := Some p;
     HunkAnalysis.complexity := HunkAnalysis.complexity r;
     HunkAnalysis.processingTime := HunkAnalysis.processingTime r |}.

Definition setProcessingTime (t : Z) (r : HunkAnalysis.t) :=
  {| HunkAnalysis.hunk := HunkAnalysis.hunk r;
     HunkAnalysis.summary := HunkAnalysis.summary r;
     HunkAnalysis.patterns := HunkAnalysis.patterns r;
     HunkAnalysis.complexity := HunkAnalysis.complexity r;
     HunkAnalysis.processingTime := t |}.

(** [[...hunk.additions, ...hunk.deletions].join('\n')] *)
Definition allContent (hunk : DiffHunk.t) : string :=
  join_nl (DiffHunk.additions hunk ++ DiffHunk.deletions hunk)%list.

(** [hunk.additions.join('\n')] *)
Definition addedCode (hunk : DiffHunk.t) : string :=
  join_nl (DiffHunk.additions hunk).

(** The complexity block of [analyzeHunk] (no call outside the process). *)
Definition runComplexity (options : Options.t) (hunk : DiffHunk.t)
    (result : HunkAnalysis.t) : HunkAnalysis.t :=
  if Options.complexity options then
    if truthy (trim (allContent hunk))
    then setComplexity (analyzeComplexity (allContent hunk) thresholds) result
    else result
  else result.

(** The summary block: the awaited call inside its [try]. *)
Definition runSummary (options : Options.t) (hunk : DiffHunk.t)
    (filename : string) (result : HunkAnalysis.t) : M HunkAnalysis.t :=
  if Options.summary options then
    try_catch
      (s <- generateSummary (DiffHunk.content hunk)
              (if truthy (DiffHunk.context hunk)
               then DiffHunk.context hunk else "")
              filename (Options.model options) ;;
       ret (setSummary s result))
      (fun _ => ret result)
  else ret result.

(** The pattern block: the awaited call inside its [try]. *)
Definition runPatterns (options : Options.t) (hunk : DiffHunk.t)
    (filename : string) (result : HunkAnalysis.t) : M HunkAnalysis.t :=
  if Options.patterns options then
    try_catch
      (if truthy (trim (addedCode hunk)) then
         p <- detectPatterns (addedCode hunk) filename (Options.model options) ;;
         ret (setPatterns p result)
       else ret result)
      (fun _ => ret result)
  else ret result.

Definition analyzeHunk (hunk : DiffHunk.t) (filename : string)
    (options : Options.t) : M HunkAnalysis.t :=
  startTime <- dateNow ;;
  let result := runComplexity options hunk (emptyAnalysis hunk) in
  result <- runSummary options hunk filename result ;;
  result <- runPatterns options hunk filename result ;;
  endTime <- dateNow ;;
  ret (setProcessingTime (endTime - startTime) result).

(** [arr.slice(0, end)] *)
Definition slice0 {A : Type} (arr : list A) (end_ : jsnum) : list A :=
  let len := Z.of_nat (List.length arr) in
  let relativeEnd := match end_ with NaN => 0%Z | Int z => z end in
  let final := if (relativeEnd <? 0)%Z then Z.max (len + relativeEnd) 0%Z
               else Z.min relativeEnd len in
  firstn (Z.to_nat final) arr.

(** The variables the two loops update:
    (hunkAnalyses, totalHunks, processedHunks). *)
Definition counters : Type := (list HunkAnalysis.t * Z * Z)%type.

(** The inner [for] loop over the slice, with its [break]. *)
Fixpoint hunkLoop (maxHunks : jsnum) (filename : string) (options : Options.t)
    (hs : list DiffHunk.t) (st : counters) : M counters :=
  match hs with
  | [] => ret st
  | hunk :: hs' =>
      let '(hunkAnalyses, totalHunks, processedHunks) := st in
      if jsge (Int processedHunks) maxHunks then ret st
      else
        analysis <- analyzeHunk hunk filename options ;;
        hunkLoop maxHunks filename options hs'
          ((hunkAnalyses ++ [analysis])%list, (totalHunks + 1)%Z,
           (processedHunks + 1)%Z)
  end.

(** [hunkAnalyses.filter(h => h.complexity).map(h => h.complexity.score)] *)
Definition complexities (hunkAnalyses : list HunkAnalysis.t) : list float :=
  flat_map (fun h => match HunkAnalysis.complexity h with
                     | Some c => [ComplexityAnalysis.score c]
                     | None => []
                     end) hunkAnalyses.

Definition overallComplexity (hunkAnalyses : list HunkAnalysis.t) : float :=
  let cs := complexities hunkAnalyses in
  if (0 <? List.length cs)%nat
  then (fold_left PrimFloat.add cs 0
        / Double.of_Z (Z.of_nat (List.length cs)))%float
  else 0%float.

(** The variables of the outer loop:
    (fileAnalyses, totalHunks, processedHunks). *)
Definition totals : Type := (list FileAnalysis.t * Z * Z)%type.

(** The outer [for] loop over the files. *)
Fixpoint fileLoop (maxHunks : jsnum) (options : Options.t)
    (tsFiles : list DiffFile.t) (st : totals) : M totals :=
  match tsFiles with
  | [] => ret st
  | file :: rest =>
      let '(fileAnalyses, totalHunks, processedHunks) := st in
      r <- hunkLoop maxHunks (DiffFile.filename file) options
             (slice0 (DiffFile.hunks file)
                     (jssub maxHunks (Int processedHunks)))
             ([], totalHunks, processedHunks) ;;
      let '(hunkAnalyses, totalHunks, processedHunks) := r in
      fileLoop maxHunks options rest
        ((fileAnalyses ++
          [ {| FileAnalysis.filename := DiffFile.filename file;
               FileAnalysis.hunks := hunkAnalyses;
               FileAnalysis.overallComplexity :=
                 overallComplexity hunkAnalyses |} ])%list,
         totalHunks, processedHunks)
  end.

(** [h.patterns?.patternsFound || []] *)
Definition foundIn (h : HunkAnalysis.t) : list PatternFinding.t :=
  match HunkAnalysis.patterns h with
  | Some p => PatternAnalysis.patternsFound p
  | None => []
  end.

Definition allPatterns (fileAnalyses : list FileAnalysis.t)
  : list PatternFinding.t :=
  flat_map (fun f => flat_map foundIn (FileAnalysis.hunks f)) fileAnalyses.

Definition aiLikelihood (n : nat) : likelihood :=
  if (5 <? n)%nat then high else if (2 <? n)%nat then medium else low.

(** Lines 86-127 of [runReview]: from the parsed budget to the result. *)
Definition runReview (tsFiles : list DiffFile.t) (options : Options.t)
  : M ReviewResult.t :=
  let maxHunks := parseInt (Options.maxHunks options) in
  startTime <- dateNow ;;
  r <- fileLoop maxHunks options tsFiles ([], 0%Z, 0%Z) ;;
  let '(fileAnalyses, totalHunks, _) := r in
  endTime <- dateNow ;;
  ret {| ReviewResult.files := fileAnalyses;
         ReviewResult.totalHunks := totalHunks;
         ReviewResult.totalProcessingTime := (endTime - startTime)%Z;
         ReviewResult.aiCodeLikelihood :=
           aiLikelihood (List.length (allPatterns fileAnalyses)) |}.

End Orchestrator.

(** The hunks of a list of files, in diff order. *)
Definition hunksOf (tsFiles : list DiffFile.t) : list DiffHunk.t :=
  flat_map DiffFile.hunks tsFiles.

(** The analyses of a result, in order. *)
Definition analysesOf (fileAnalyses : list FileAnalysis.t)
  : list HunkAnalysis.t :=
  flat_map FileAnalysis.hunks fileAnalyses.

(** A world where the network is down: every call of the External Reviewer
    throws; the clock advances by one millisecond per reading. *)
Definition offline : External :=
  {| World := Z;
     Exn := string;
     now := fun w => (w, (w + 1)%Z);
     generateSummary := fun _ _ _ _ w => (Thrown "network error", w);
     detectPatterns := fun _ _ _ w => (Thrown "network error", w);
     thresholds := mkMetrics 3 10 4 50 10 |}.

(** A world where the summary call fails and the pattern call answers. *)
Definition summaryDown : External :=
  {| World := Z;
     Exn := string;
     now := fun w => (w, (w + 1)%Z);
     generateSummary := fun _ _ _ _ w => (Thrown "network error", w);
     detectPatterns := fun code _ _ w =>
       (Returned {| PatternAnalysis.patternsFound := [];
                    PatternAnalysis.overallAiLikelihood := "low";
                    PatternAnalysis.keyQuestion := None |}, w);
     thresholds := mkMetrics 3 10 4 50 10 |}.

(** A world where the External Reviewer answers every call. *)
Definition online : External :=
  {| World := Z;
     Exn := string;
     now := fun w => (w, (w + 1)%Z);
     generateSummary := fun _ _ _ _ w =>
       (Returned {| SummaryAnalysis.what := "Adds a constant";
                    SummaryAnalysis.why := "Intent unclear";
                    SummaryAnalysis.watch := [] |}, w);
     detectPatterns := fun code _ _ w =>
       (Returned {| PatternAnalysis.patternsFound :=
                      [ {| PatternFinding.type := "verbose-comments";
                           PatternFinding.lines := [];
                           PatternFinding.issue := code;
                           PatternFinding.simplerAlternative := None |} ];
                    PatternAnalysis.overallAiLikelihood := "low";
                    PatternAnalysis.keyQuestion := None |}, w);
     thresholds := mkMetrics 3 10 4 50 10 |}.

End Review.

(* ================================================================== *)
(** * Vocabulary of the statements

    Predicates, sample inputs and reference definitions the theorems below
    are stated with. *)

Module DiffSpec.
Import Js Re Diff.

(** *** Sample diffs *)

Definition nl : string := String LF "".

(** One file, one hunk under the header of the round-trip example. *)
Definition sampleDiff : string :=
  "diff --git a/src/app.ts b/src/app.ts" ++ nl ++
  "index 1111111..2222222 100644" ++ nl ++
  "--- a/src/app.ts" ++ nl ++
  "+++ b/src/app.ts" ++ nl ++
  "@@ -10,3 +10,5 @@ function main() {" ++ nl ++
  " const a = 1;" ++ nl ++
  "+const b = 2;" ++ nl ++
  "+const c = 3;" ++ nl ++
  " return a;" ++ nl ++
  " }".

(** Two files; the second has two hunks and a removed line. *)
Definition twoFileDiff : string :=
  "diff --git a/src/a.ts b/src/a.ts" ++ nl ++
  "--- a/src/a.ts" ++ nl ++
  "+++ b/src/a.ts" ++ nl ++
  "@@ -1,2 +1,3 @@" ++ nl ++
  " import x from 'x';" ++ nl ++
  "+import y from 'y';" ++ nl ++
  " export default x;" ++ nl ++
  "diff --git a/src/b.ts b/src/b.ts" ++ nl ++
  "--- a/src/b.ts" ++ nl ++
  "+++ b/src/b.ts" ++ nl ++
  "@@ -4 +4 @@ const f = () => {" ++ nl ++
  "-  return 1;" ++ nl ++
  "+  return 2;" ++ nl ++
  "@@ -20,2 +20,3 @@" ++ nl ++
  " }" ++ nl ++
  "" ++ nl ++
  "+export { f };".

(** A hunk of one added line, then a line that starts with [@@] without
    being a hunk header, then one more added line. *)
Definition strayHeaderDiff : string :=
  "diff --git a/x.ts b/x.ts" ++ nl ++
  "@@ -1 +1,2 @@" ++ nl ++
  "+a" ++ nl ++
  "@@ bogus" ++ nl ++
  "+b".

(** The same diff without the stray line. *)
Definition strayHeaderRemoved : string :=
  "diff --git a/x.ts b/x.ts" ++ nl ++
  "@@ -1 +1,2 @@" ++ nl ++
  "+a" ++ nl ++
  "+b".

(** What the examples show of a file: its name, the additions of each of its
    hunks, and its counter of additions. *)
Definition outline (f : DiffFile.t)
  : string * list (list string) * nat :=
  (DiffFile.filename f, map DiffHunk.additions (DiffFile.hunks f),
   DiffFile.additions f).

(** *** The text of a hunk header *)

Fixpoint allDigits (s : string) : bool :=
  match s with
  | EmptyString => true
  | String c s' => isDigit c && allDigits s'
  end.

(** A decimal numeral: a non-empty run of digits. *)
Definition numeral (s : string) : Prop :=
  truthy s = true /\ allDigits s = true.

Definition optNumeral (o : option string) : Prop :=
  match o with
  | Some s => numeral s
  | None => True
  end.

(** [,count], or nothing. *)
Definition optCount (o : option string) : string :=
  match o with
  | Some s => "," ++ s
  | None => ""
  end.

(** [@@ -a[,b] +c[,d] @@] and what follows on the line. *)
Definition headerLine (a : string) (b : option string) (c : string)
    (d : option string) (tail : string) : string :=
  "@@ -" ++ a ++ optCount b ++ " +" ++ c ++ optCount d ++ " @@" ++ tail.

(** The number a numeral denotes. *)
Definition valueOf (s : string) : Z := digitsVal 0 s.

(** The count a header side denotes: 1 when it is left out. *)
Definition countOf (o : option string) : Z :=
  match o with
  | Some s => valueOf s
  | None => 1
  end.

(** The unit before the position reached by reading [s]. *)
Definition lastOr (pv : option ascii) (s : string) : option ascii :=
  fold_left (fun _ c => Some c) (list_ascii_of_string s) pv.

Definition noDigitHead (s : string) : Prop :=
  match s with
  | EmptyString => True
  | String c _ => isDigit c = false
  end.

(** The captures after an optional group. *)
Definition optCap (i : nat) (o : option string) (cs : caps) : caps :=
  match o with
  | Some s => (i, s) :: cs
  | None => cs
  end.

(** Where the header pattern stops: just after its closing [@@]. *)
Definition endPos (tail : string) : pos := mkpos (Some "@"%char) tail.

(** *** Where hunks come from *)

(** Every hunk of a file is the conversion of a raw hunk satisfying [R]. *)
Definition fileOK (R : RawHunk -> Prop) (f : DiffFile.t) : Prop :=
  Forall (fun h =>
            exists raw, R raw /\ h = convertHunk raw (DiffFile.filename f))
         (DiffFile.hunks f).

Definition stateOK (R : RawHunk -> Prop) (st : state) : Prop :=
  Forall (fileOK R) (files st)
  /\ (forall f, currentFile st = Some f -> fileOK R f)
  /\ (forall raw, currentHunk st = Some raw -> R raw).

(** A raw hunk whose line range is the one of a header line of the input. *)
Definition fromHeader (ls : list string) (raw : RawHunk) : Prop :=
  exists line raw0,
    In line ls /\ startsWith "@@" line = true
    /\ parseHunkHeader line = Some raw0
    /\ newStart raw = newStart raw0 /\ newLines raw = newLines raw0.

(** [newStart + newLines - 1] *)
Definition lastLine (raw : RawHunk) : jsnum :=
  jssub (jsadd (newStart raw) (newLines raw)) (Int 1).

(** Two states of the loop that end in the same result: equal, or with equal
    finished files and no current file. *)
Definition fileless (st1 st2 : state) : Prop :=
  st1 = st2
  \/ (files st1 = files st2
      /\ currentFile st1 = None /\ currentFile st2 = None).

(** A line the parser has no reading for: no file header, no hunk header,
    and no content line (it starts with none of [+], [-] and the space, and
    is not empty). *)
Definition unparseable (line : string) : bool :=
  negb (startsWith "diff --git" line) && negb (startsWith "@@" line)
  && negb (isContentLine line).

(** *** Counters *)

(** The '+'-lines and '-'-lines of a raw line buffer. *)
Definition countAdd (ls : list string) : nat :=
  List.length (filter isAddition ls).

Definition countDel (ls : list string) : nat :=
  List.length (filter isDeletion ls).

(** [sum(len(h.additions) for h in hunks)], and the same for deletions. *)
Definition totalAdditions (hs : list DiffHunk.t) : nat :=
  list_sum (map (fun h => List.length (DiffHunk.additions h)) hs).

Definition totalDeletions (hs : list DiffHunk.t) : nat :=
  list_sum (map (fun h => List.length (DiffHunk.deletions h)) hs).

(** The counters of a file against its hunks, with [da]/[dd] lines of the
    open hunk already counted. *)
Definition balanced (da dd : nat) (f : DiffFile.t) : Prop :=
  DiffFile.additions f = (totalAdditions (DiffFile.hunks f) + da)%nat
  /\ DiffFile.deletions f = (totalDeletions (DiffFile.hunks f) + dd)%nat.

Definition counted (st : state) : Prop :=
  Forall (balanced 0 0) (files st)
  /\ (forall f, currentFile st = Some f ->
      match currentHunk st with
      | Some raw => balanced (countAdd (lines raw)) (countDel (lines raw)) f
      | None => balanced 0 0 f
      end).

(** What a valid unified diff guarantees about framing: a line that starts
    with [@@] is a hunk header. *)
Definition wellFramed (ls : list string) : Prop :=
  forall line, In line ls -> startsWith "@@" line = true ->
               parseHunkHeader line <> None.

(** *** Classifying the content of a hunk again *)

(** The lines [convertHunk] keeps in [contentLines]. *)
Definition isKept (line : string) : bool :=
  isAddition line || isDeletion line || isContext line.

Fixpoint noLF (s : string) : bool :=
  match s with
  | EmptyString => true
  | String ch s' => negb (Ascii.eqb ch LF) && noLF s'
  end.

(** The line classifier of the idempotence property, on the content of a
    hunk: a line that starts with [+] but not [+++] is an addition, one that
    starts with [-] but not [---] is a deletion, each kept without its
    marker. *)
Definition reclassify (content : string) : list string * list string :=
  let ls := split_nl content in
  (map substring1
       (filter (fun l => startsWith "+" l && negb (startsWith "+++" l)) ls),
   map substring1
       (filter (fun l => startsWith "-" l && negb (startsWith "---" l)) ls)).
End DiffSpec.

Module ParseSpec.
Import Js Re Diff DiffSpec.

(** *** The text of a well-framed diff *)

(** A hunk as text: its header line and the lines under it. *)
Record hunkText : Type := mkHunkText {
  header : string;
  body : list string
}.

(** A file as text: the [diff --git] line, the lines between it and the
    first hunk header, and the hunks. *)
Record fileText : Type := mkFileText {
  fileHeader : string;
  meta : list string;
  hunkTexts : list hunkText
}.

Definition renderHunk (h : hunkText) : list string := header h :: body h.

Definition renderFile (f : fileText) : list string :=
  (fileHeader f :: meta f ++ flat_map renderHunk (hunkTexts f))%list.

Definition render (fs : list fileText) : list string :=
  flat_map renderFile fs.

(** A line that opens neither a file nor a hunk. *)
Definition plain (line : string) : bool :=
  negb (startsWith "diff --git" line) && negb (startsWith "@@" line).

Definition framedHunk (h : hunkText) : Prop :=
  startsWith "@@" (header h) = true
  /\ parseHunkHeader (header h) <> None
  /\ forallb plain (body h) = true.

Definition framedFile (f : fileText) : Prop :=
  startsWith "diff --git" (fileHeader f) = true
  /\ forallb plain (meta f) = true
  /\ Forall framedHunk (hunkTexts f).

(** The range a header line announces; NaN when it is no header. *)
Definition headerStart (line : string) : jsnum :=
  match parseHunkHeader line with
  | Some raw => newStart raw
  | None => NaN
  end.

Definition headerEnd (line : string) : jsnum :=
  match parseHunkHeader line with
  | Some raw => lastLine raw
  | None => NaN
  end.

(** The hunk a hunk text stands for, in the file called [name]. *)
Definition hunkOf (name : string) (h : hunkText) : DiffHunk.t :=
  {| DiffHunk.filename := name;
     DiffHunk.startLine := headerStart (header h);
     DiffHunk.endLine := headerEnd (header h);
     DiffHunk.content := join_nl (filter isKept (body h));
     DiffHunk.additions := map substring1 (filter isAddition (body h));
     DiffHunk.deletions := map substring1 (filter isDeletion (body h));
     DiffHunk.context := "" |}.

(** The file a file text stands for. *)
Definition fileOf (f : fileText) : DiffFile.t :=
  {| DiffFile.filename := headerFilename (fileHeader f);
     DiffFile.hunks := map (hunkOf (headerFilename (fileHeader f))) (hunkTexts f);
     DiffFile.additions :=
       list_sum (map (fun h => countAdd (body h)) (hunkTexts f));
     DiffFile.deletions :=
       list_sum (map (fun h => countDel (body h)) (hunkTexts f)) |}.

(** [twoFileDiff], cut into its parts. *)
Definition twoFileText : list fileText :=
  [ {| fileHeader := "diff --git a/src/a.ts b/src/a.ts";
       meta := ["--- a/src/a.ts"; "+++ b/src/a.ts"];
       hunkTexts :=
         [ {| header := "@@ -1,2 +1,3 @@";
              body := [" import x from 'x';"; "+import y from 'y';";
                       " export default x;"] |} ] |};
    {| fileHeader := "diff --git a/src/b.ts b/src/b.ts";
       meta := ["--- a/src/b.ts"; "+++ b/src/b.ts"];
       hunkTexts :=
         [ {| header := "@@ -4 +4 @@ const f = () => {";
              body := ["-  return 1;"; "+  return 2;"] |};
           {| header := "@@ -20,2 +20,3 @@";
              body := [" }"; ""; "+export { f };"] |} ] |} ].

(** The open file once its open hunk is emitted. *)
Definition flushed (st : state) : option DiffFile.t :=
  closeHunk (currentFile st) (currentHunk st).

(** A file with more hunks and more counted lines. *)
Definition grown (g : DiffFile.t) (hs : list DiffHunk.t) (a d : nat)
  : DiffFile.t :=
  {| DiffFile.filename := DiffFile.filename g;
     DiffFile.hunks := (DiffFile.hunks g ++ hs)%list;
     DiffFile.additions := DiffFile.additions g + a;
     DiffFile.deletions := DiffFile.deletions g + d |}.

(** A raw hunk with more lines. *)
Definition extended (raw : RawHunk) (ls : list string) : RawHunk :=
  {| oldStart := oldStart raw; oldLines := oldLines raw;
     newStart := newStart raw; newLines := newLines raw;
     lines := (lines raw ++ ls)%list |}.

(** *** Lines the parser drops *)

(** [line.startsWith('index ') || line.startsWith('---')
     || line.startsWith('+++')] *)
Definition isSkipped (line : string) : bool :=
  startsWith "index " line || startsWith "---" line || startsWith "+++" line.

(** *** The names of the files *)

(** The files closed so far and the open one. *)
Definition opened (st : state) : list DiffFile.t :=
  closeFile (files st) (currentFile st).

(** *** The paths of a file header *)

(** Every unit of [s] is in the class [f]. *)
Fixpoint within (f : ascii -> bool) (s : string) : bool :=
  match s with
  | EmptyString => true
  | String c s' => f c && within f s'
  end.

(** Every unit of [s] is one [.] matches. *)
Definition oneLine (s : string) : bool :=
  within (fun c => negb (isLineTerminator c)) s.

(** [s] is empty or starts outside the class [f]. *)
Definition stopsAt (f : ascii -> bool) (s : string) : bool :=
  match s with
  | EmptyString => true
  | String c _ => negb (f c)
  end.

(** [s] is empty or starts with a line terminator. *)
Definition lineEnds (s : string) : bool :=
  match s with
  | EmptyString => true
  | String c _ => isLineTerminator c
  end.

End ParseSpec.

Module ComplexitySpec.
Import Js Re Complexity.
Local Open Scope string_scope.

(** The flag [checkThresholds] builds for a metric above its threshold. *)
Definition flagOf (metrics : ComplexityMetrics)
    (thresholds : ComplexityThresholds) (m : metric) : ComplexityFlag.t :=
  {| ComplexityFlag.metric := m;
     ComplexityFlag.value := metrics m;
     ComplexityFlag.threshold := thresholds m;
     ComplexityFlag.severity := severityOf (metrics m) (thresholds m) |}.

(** Integers on which the comparison [value > threshold * 1.5] of the code
    is exact in binary64: below 2^51 in absolute value, the product is a
    multiple of one half below 2^52. *)
Definition exactRange (f : metric -> Z) : Prop :=
  forall m, (Z.abs (f m) < 2 ^ 51)%Z.

(** A hunk that is deep, long and a little branchy, against the default
    thresholds. *)
Definition deepMetrics : ComplexityMetrics := mkMetrics 5 12 3 80 4.

Definition defaultThresholds : ComplexityThresholds := mkMetrics 3 10 4 50 10.

(** An added line that continues an [if] chain. *)
Definition elseIfLine : string := "} else if (x) {".

(** The same condition without the [else]. *)
Definition ifLine : string := "if (x) {".
End ComplexitySpec.

Module ReviewSpec.
Import Js Complexity Review.

(** The number of hunks a budget admits: none for NaN or a negative one. *)
Definition budget (maxHunks : jsnum) : nat :=
  match maxHunks with
  | NaN => 0
  | Int m => Z.to_nat m
  end.

(** The hunks still admitted once [processed] of them were analyzed. *)
Definition room (maxHunks : jsnum) (processed : Z) : nat :=
  match maxHunks with
  | NaN => 0
  | Int m => Z.to_nat (m - processed)
  end.

(** The findings one record holds: the length of [patterns.patternsFound],
    none when [patterns] is absent. *)
Definition findings (a : HunkAnalysis.t) : nat :=
  match HunkAnalysis.patterns a with
  | Some p => List.length (PatternAnalysis.patternsFound p)
  | None => 0
  end.

(** The total count of pattern findings across all hunks in all files, read
    off the records of the result. *)
Definition patternCount (r : ReviewResult.t) : nat :=
  list_sum (map (fun f => list_sum (map findings (FileAnalysis.hunks f)))
                (ReviewResult.files r)).

(** An analysis that some call of [analyzeHunk] on its own hunk returned. *)
Definition producedBy {ext : External} (options : Options.t)
    (a : HunkAnalysis.t) : Prop :=
  exists filename w w',
    analyzeHunk (HunkAnalysis.hunk a) filename options w = (Returned a, w').

(** Every analyzer on, the default model. *)
Definition allOn (maxHunks : string) : Options.t :=
  {| Options.summary := true; Options.patterns := true;
     Options.complexity := true;
     Options.model := "claude-sonnet-4-20250514";
     Options.maxHunks := maxHunks |}.

Definition addedHunk (n : Z) : DiffHunk.t :=
  {| DiffHunk.filename := "src/a.ts";
     DiffHunk.startLine := Int n;
     DiffHunk.endLine := Int n;
     DiffHunk.content := "+const x = 1;";
     DiffHunk.additions := ["const x = 1;"];
     DiffHunk.deletions := [];
     DiffHunk.context := "" |}.

Definition hunksFrom (start : Z) (n : nat) : list DiffHunk.t :=
  map (fun i => addedHunk (start + 10 * Z.of_nat i)) (seq 0 n).

(** Two files with 15 and 10 hunks. *)
Definition twentyFiveHunks : list DiffFile.t :=
  [ {| DiffFile.filename := "src/a.ts"; DiffFile.hunks := hunksFrom 1 15;
       DiffFile.additions := 15; DiffFile.deletions := 0 |};
    {| DiffFile.filename := "src/b.ts"; DiffFile.hunks := hunksFrom 1 10;
       DiffFile.additions := 10; DiffFile.deletions := 0 |} ].
End ReviewSpec.

(* ================================================================== *)
(** * Properties of the diff parser *)

Module DiffProps.
Import Js Re Diff DiffSpec ParseSpec.

(** *** The header pattern on header text *)

Lemma strlen_app (s t : string) :
  String.length (s ++ t) = (String.length s + String.length t)%nat.
Proof. induction s; cbn; [reflexivity|now rewrite IHs]. Qed.

Lemma take_app (s t : string) :
  take (String.length (s ++ t) - String.length t) (s ++ t) = s.
Proof.
  rewrite strlen_app, Nat.add_sub.
  induction s; cbn; [destruct t; reflexivity|now rewrite IHs].
Qed.

Lemma starLoop_0 m1 (k : cont) p cs : starLoop m1 k 0 p cs = k p cs.
Proof. reflexivity. Qed.

Lemma starLoop_S m1 (k : cont) n p cs :
  starLoop m1 k (S n) p cs =
  match m1 p cs (fun p' cs' =>
                   if (String.length (rest p') <? String.length (rest p))%nat
                   then starLoop m1 k n p' cs' else None) with
  | Some x => Some x
  | None => k p cs
  end.
Proof. reflexivity. Qed.

Lemma rmatch_Cls f p cs (k : cont) :
  rmatch (Cls f) p cs k =
  match rest p with
  | String a s => if f a then k (mkpos (Some a) s) cs else None
  | EmptyString => None
  end.
Proof. reflexivity. Qed.

Lemma starLoop_digits (k : cont) (x : result) (rest : string) (cs : caps) :
  noDigitHead rest ->
  forall ds n pv,
    allDigits ds = true ->
    (String.length (ds ++ rest) <= n)%nat ->
    k (mkpos (lastOr pv ds) rest) cs = Some x ->
    starLoop (rmatch digit) k n (mkpos pv (ds ++ rest)) cs = Some x.
Proof.
  intros Hrest ds. induction ds as [|d ds IH]; intros n pv Hds Hn Hk.
  - cbn [append lastOr list_ascii_of_string fold_left] in *.
    destruct n; [exact Hk|].
    rewrite starLoop_S. unfold digit. rewrite rmatch_Cls. cbn [Re.rest].
    destruct rest as [|c r]; [exact Hk|].
    cbn in Hrest. rewrite Hrest. exact Hk.
  - cbn [allDigits] in Hds. apply andb_true_iff in Hds. destruct Hds as [Hd Hds].
    destruct n; [cbn in Hn; lia|].
    rewrite starLoop_S. unfold digit at 1. rewrite rmatch_Cls.
    cbn [Re.rest append]. rewrite Hd.
    cbn [Re.rest String.length].
    assert (Hlt : (String.length (ds ++ rest) <? S (String.length (ds ++ rest)))%nat = true)
      by (apply Nat.ltb_lt; lia).
    rewrite Hlt.
    rewrite (IH n (Some d) Hds); [reflexivity| cbn in Hn; lia | exact Hk].
Qed.

Lemma group_numeral (i : nat) (ds rest : string) (pv : option ascii)
    (cs : caps) (k : cont) (x : result) :
  numeral ds -> noDigitHead rest ->
  k (mkpos (lastOr pv ds) rest) ((i, ds) :: cs) = Some x ->
  rmatch (Group i (Plus digit)) (mkpos pv (ds ++ rest)) cs k = Some x.
Proof.
  intros [Hne Hds] Hrest Hk.
  destruct ds as [|d ds]; [discriminate|].
  cbn in Hds. apply andb_true_iff in Hds. destruct Hds as [Hd Hds].
  cbn [rmatch Plus digit Re.rest append]. rewrite Hd.
  apply starLoop_digits; auto.
  unfold consumed. cbn [Re.rest].
  replace (String d (ds ++ rest)) with (String d ds ++ rest) by reflexivity.
  rewrite take_app. exact Hk.
Qed.

Lemma numeral_noWhite_head (s : string) :
  numeral s -> exists c s', s = String c s' /\ isDigit c = true.
Proof.
  intros [Hne Hds]. destruct s as [|c s']; [discriminate|].
  cbn in Hds. apply andb_true_iff in Hds. exists c, s'. tauto.
Qed.

(** The optional [,count] group followed by a continuation that succeeds. *)
Lemma opt_count (i : nat) (o : option string) (rest : string)
    (pv : option ascii) (cs : caps) (k : cont) (x : result) :
  optNumeral o ->
  (exists r', rest = String " " r') ->
  (forall pv', k (mkpos pv' rest) (optCap i o cs) = Some x) ->
  rmatch (Opt (Seq (Chr ",") (Group i (Plus digit))))
         (mkpos pv (optCount o ++ rest)) cs k = Some x.
Proof.
  intros Ho [r' ->] Hk. unfold Opt.
  destruct o as [ds|]; cbn [optCount optCap] in *.
  - change (rmatch (Alt ?r1 ?r2) ?p ?c ?k0)
      with (match rmatch r1 p c k0 with Some y => Some y | None => rmatch r2 p c k0 end).
    change (rmatch (Seq (Chr ",") ?r2) (mkpos pv (("," ++ ds) ++ ?t)) ?c ?k0)
      with (rmatch r2 (mkpos (Some ","%char) (ds ++ t)) c k0).
    rewrite (group_numeral i ds _ _ _ _ x); auto.
    reflexivity.
  - cbn. apply Hk.
Qed.

Lemma rmatch_Seq r1 r2 p cs (k : cont) :
  rmatch (Seq r1 r2) p cs k = rmatch r1 p cs (fun p' cs' => rmatch r2 p' cs' k).
Proof. reflexivity. Qed.

Lemma noDigitHead_optCount (o : option string) (r : string) :
  noDigitHead (optCount o ++ " " ++ r).
Proof. destruct o; reflexivity. Qed.

Section Header.
Variables (a c : string) (b d : option string) (tail : string).
Hypotheses (Ha : numeral a) (Hb : optNumeral b)
           (Hc : numeral c) (Hd : optNumeral d).

Lemma header_after_c (pv : option ascii) (cs : caps) :
  rmatch (Seq (Opt (Seq (Chr ",") (Group 4 (Plus digit)))) (Lit " @@"))
         (mkpos pv (optCount d ++ " @@" ++ tail)) cs accept
  = Some (endPos tail, optCap 4 d cs).
Proof.
  rewrite rmatch_Seq.
  apply opt_count; [exact Hd|eexists; reflexivity|].
  intros pv'. reflexivity.
Qed.

Lemma header_after_b (pv : option ascii) (cs : caps) :
  rmatch (Seq (Lit " +")
            (Seq (Group 3 (Plus digit))
               (Seq (Opt (Seq (Chr ",") (Group 4 (Plus digit)))) (Lit " @@"))))
         (mkpos pv (" +" ++ c ++ optCount d ++ " @@" ++ tail)) cs accept
  = Some (endPos tail, optCap 4 d ((3, c) :: cs)).
Proof.
  rewrite rmatch_Seq.
  change (rmatch (Lit " +") (mkpos pv (" +" ++ ?t)) cs ?k)
    with (k (mkpos (Some "+"%char) t) cs).
  cbv beta. rewrite rmatch_Seq.
  apply group_numeral; [exact Hc|apply noDigitHead_optCount|].
  apply header_after_c.
Qed.

Lemma header_matchAt :
  matchAt hunkHeaderRe (mkpos None (headerLine a b c d tail))
  = Some (endPos tail, optCap 4 d ((3, c) :: optCap 2 b [(1, a)])).
Proof.
  unfold matchAt, hunkHeaderRe, headerLine. cbn [seqs].
  rewrite rmatch_Seq.
  change (rmatch (Lit "@@ -") (mkpos None ("@@ -" ++ ?t)) [] ?k)
    with (k (mkpos (Some "-"%char) t) []).
  cbv beta. rewrite rmatch_Seq.
  apply group_numeral; [exact Ha|apply noDigitHead_optCount|].
  rewrite rmatch_Seq.
  apply opt_count; [exact Hb|eexists; reflexivity|].
  intros pv'. apply header_after_b.
Qed.

Lemma header_search :
  search hunkHeaderRe (headerLine a b c d tail)
  = Some (optCap 4 d ((3, c) :: optCap 2 b [(1, a)])).
Proof.
  unfold search.
  replace (searchFrom hunkHeaderRe None (headerLine a b c d tail))
    with (Some (endPos tail, optCap 4 d ((3, c) :: optCap 2 b [(1, a)]))).
  - reflexivity.
  - symmetry. unfold headerLine.
    change ("@@ -" ++ ?t) with (String "@" (String "@" (String " " (String "-" t)))).
    unfold searchFrom.
    change (String "@" (String "@" (String " " (String "-" ?t)))) with ("@@ -" ++ t).
    fold (headerLine a b c d tail). rewrite header_matchAt. reflexivity.
Qed.


Lemma isDigit_plain (ch : ascii) :
  isDigit ch = true ->
  isWhiteSpace ch = false /\ Ascii.eqb ch "-" = false /\ Ascii.eqb ch "+" = false.
Proof.
  destruct ch as [[] [] [] [] [] [] [] []]; cbn; intro H;
    try discriminate H; repeat split.
Qed.

Lemma parseInt_numeral (s : string) :
  numeral s -> parseInt s = Int (valueOf s).
Proof.
  intros Hs. destruct (numeral_noWhite_head s Hs) as [ch [s' [-> Hch]]].
  destruct (isDigit_plain ch Hch) as [Hw [Hm Hp]].
  unfold parseInt, valueOf. cbn [trimStart]. rewrite Hw, Hm, Hp, Hch.
  reflexivity.
Qed.

Lemma countOr1_optNumeral (o : option string) :
  optNumeral o -> countOr1 o = Int (countOf o).
Proof.
  destruct o as [s|]; cbn; [|reflexivity].
  intros Hs. destruct Hs as [Hne Hds]. rewrite Hne.
  now apply parseInt_numeral.
Qed.

Lemma capture_optCap4 (i : nat) (cs : caps) (o : option string) :
  i <> 4%nat -> capture i (optCap 4 o cs) = capture i cs.
Proof.
  intros Hi. destruct o; cbn [optCap capture]; [|reflexivity].
  destruct (Nat.eqb_spec i 4); [contradiction|reflexivity].
Qed.

Lemma parseHunkHeader_headerLine :
  parseHunkHeader (headerLine a b c d tail)
  = Some {| oldStart := Int (valueOf a);
            oldLines := Int (countOf b);
            newStart := Int (valueOf c);
            newLines := Int (countOf d);
            lines := [] |}.
Proof.
  unfold parseHunkHeader. rewrite header_search.
  assert (H1 : capture 1 (optCap 4 d ((3, c) :: optCap 2 b [(1, a)])) = Some a)
    by (rewrite capture_optCap4 by discriminate; destruct b; reflexivity).
  assert (H2 : capture 2 (optCap 4 d ((3, c) :: optCap 2 b [(1, a)])) = b)
    by (rewrite capture_optCap4 by discriminate; destruct b; reflexivity).
  assert (H3 : capture 3 (optCap 4 d ((3, c) :: optCap 2 b [(1, a)])) = Some c)
    by (rewrite capture_optCap4 by discriminate; reflexivity).
  assert (H4 : capture 4 (optCap 4 d ((3, c) :: optCap 2 b [(1, a)])) = d)
    by (destruct d, b; reflexivity).
  rewrite H1, H2, H3, H4.
  rewrite !parseInt_numeral, !countOr1_optNumeral by assumption.
  reflexivity.
Qed.

End Header.

(** *** Where the hunks of the result come from, and their line range *)

Section Provenance.
Variable ls : list string.
Variable R : RawHunk -> Prop.
Hypothesis R_header :
  forall line raw,
    In line ls -> startsWith "@@" line = true ->
    parseHunkHeader line = Some raw -> R raw.
Hypothesis R_push :
  forall line raw, In line ls -> R raw -> R (pushRaw raw line).

Lemma closeHunk_OK (cf : option DiffFile.t) (ch : option RawHunk) :
  (forall f, cf = Some f -> fileOK R f) ->
  (forall raw, ch = Some raw -> R raw) ->
  forall f, closeHunk cf ch = Some f -> fileOK R f.
Proof.
  intros Hf Hh f. destruct cf as [f0|], ch as [raw|]; cbn; intro E;
    try discriminate; injection E as <-; try now apply Hf.
  unfold fileOK. cbn. apply Forall_app. split; [now apply Hf|].
  constructor; [|constructor]. exists raw. split; [now apply Hh|reflexivity].
Qed.

Lemma closeFile_OK (fs : list DiffFile.t) (cf : option DiffFile.t) :
  Forall (fileOK R) fs ->
  (forall f, cf = Some f -> fileOK R f) ->
  Forall (fileOK R) (closeFile fs cf).
Proof.
  intros Hfs Hf. destruct cf as [f|]; cbn; [|exact Hfs].
  apply Forall_app. split; [exact Hfs|]. constructor; [now apply Hf|constructor].
Qed.

Lemma countLine_OK (line : string) (f : DiffFile.t) :
  fileOK R f -> fileOK R (countLine line f).
Proof.
  unfold countLine. destruct (isAddition line); [exact (fun H => H)|].
  destruct (isDeletion line); exact (fun H => H).
Qed.

Lemma step_OK (st : state) (line : string) :
  In line ls -> stateOK R st -> stateOK R (step st line).
Proof.
  intros Hin (Hfs & Hcf & Hch). unfold step.
  destruct (startsWith "diff --git" line).
  { repeat split; cbn [files currentFile currentHunk].
    - apply closeFile_OK; [exact Hfs|]. now apply closeHunk_OK.
    - intros f E. injection E as <-. constructor.
    - discriminate. }
  destruct (startsWith "index " line || startsWith "---" line
            || startsWith "+++" line); [repeat split; assumption|].
  destruct (startsWith "@@" line) eqn:Hat.
  { repeat split; cbn [files currentFile currentHunk].
    - exact Hfs.
    - now apply closeHunk_OK.
    - intros raw E. destruct (parseHunkHeader line) as [raw0|] eqn:Ep.
      + injection E as <-. now apply (R_header line).
      + now apply Hch. }
  destruct (currentHunk st) as [h|] eqn:Eh;
    [|repeat split; try assumption; rewrite Eh; exact Hch].
  destruct (isContentLine line);
    [|repeat split; try assumption; rewrite Eh; exact Hch].
  repeat split; cbn [files currentFile currentHunk].
  - exact Hfs.
  - intros f E. destruct (currentFile st) as [f0|]; [|discriminate].
    injection E as <-. apply countLine_OK. now apply Hcf.
  - intros raw E. injection E as <-. apply (R_push line); [exact Hin|].
    now apply Hch.
Qed.

Lemma fold_step_OK (l : list string) :
  incl l ls -> forall st, stateOK R st -> stateOK R (fold_left step l st).
Proof.
  induction l as [|line l IH]; intros Hincl st Hst; [exact Hst|].
  cbn [fold_left]. apply IH.
  - intros x Hx. apply Hincl. now right.
  - apply step_OK; [apply Hincl; now left|exact Hst].
Qed.

Lemma parseLines_OK : Forall (fileOK R) (parseLines ls).
Proof.
  unfold parseLines, finish.
  destruct (fold_step_OK ls (incl_refl ls) initial) as (Hfs & Hcf & Hch).
  { repeat split; cbn; [constructor|discriminate|discriminate]. }
  apply closeFile_OK; [exact Hfs|]. now apply closeHunk_OK.
Qed.

End Provenance.

Lemma convertHunk_range (raw : RawHunk) (filename : string) :
  DiffHunk.startLine (convertHunk raw filename) = newStart raw
  /\ DiffHunk.endLine (convertHunk raw filename) = lastLine raw
  /\ DiffHunk.filename (convertHunk raw filename) = filename.
Proof.
  unfold convertHunk, lastLine.
  destruct (fold_left pushLine (lines raw) ([], [], [])) as [[adds dels] cont].
  repeat split.
Qed.

Lemma parseDiff_fromHeader (diffText : string) :
  Forall (fileOK (fromHeader (split_nl diffText))) (parseDiff diffText).
Proof.
  apply parseLines_OK.
  - intros line raw Hin Hat Hp. exists line, raw. repeat split; assumption.
  - intros line raw Hin (l0 & raw0 & H0 & Hat & Hp & Hs & Hl).
    exists l0, raw0. repeat split; assumption.
Qed.

(** *** The buckets of [convertHunk] *)

Lemma isAddition_not_deletion (line : string) :
  isAddition line = true -> isDeletion line = false.
Proof.
  unfold isAddition, isDeletion, startsWith.
  destruct line as [|ch r]; [discriminate|].
  cbn [String.prefix].
  destruct (ascii_dec "+" ch) as [<-|]; [reflexivity|discriminate].
Qed.

Lemma pushLines_spec (ls : list string) :
  forall adds dels cont,
    fold_left pushLine ls (adds, dels, cont)
    = ((adds ++ map substring1 (filter isAddition ls))%list,
       (dels ++ map substring1 (filter isDeletion ls))%list,
       (cont ++ filter isKept ls)%list).
Proof.
  induction ls as [|line ls IH]; intros adds dels cont; cbn [fold_left filter map].
  - now rewrite !app_nil_r.
  - unfold pushLine at 2.
    change (isKept line)
      with (isAddition line || isDeletion line || isContext line).
    destruct (isAddition line) eqn:Ea.
    + rewrite (isAddition_not_deletion line Ea). rewrite IH.
      cbn [orb map]. rewrite <- !app_assoc. reflexivity.
    + destruct (isDeletion line) eqn:Ed.
      * rewrite IH. cbn [orb map]. rewrite <- !app_assoc. reflexivity.
      * destruct (isContext line) eqn:Ec; rewrite IH; cbn [orb];
          [rewrite <- !app_assoc|]; reflexivity.
Qed.

Lemma convertHunk_buckets (raw : RawHunk) (filename : string) :
  DiffHunk.additions (convertHunk raw filename)
    = map substring1 (filter isAddition (lines raw))
  /\ DiffHunk.deletions (convertHunk raw filename)
    = map substring1 (filter isDeletion (lines raw))
  /\ DiffHunk.content (convertHunk raw filename)
    = join_nl (filter isKept (lines raw)).
Proof.
  unfold convertHunk. rewrite pushLines_spec. cbn [app]. repeat split.
Qed.

(** *** The running counters *)

Lemma totalAdditions_app (hs hs' : list DiffHunk.t) :
  totalAdditions (hs ++ hs') = (totalAdditions hs + totalAdditions hs')%nat.
Proof. unfold totalAdditions. now rewrite map_app, list_sum_app. Qed.

Lemma totalDeletions_app (hs hs' : list DiffHunk.t) :
  totalDeletions (hs ++ hs') = (totalDeletions hs + totalDeletions hs')%nat.
Proof. unfold totalDeletions. now rewrite map_app, list_sum_app. Qed.

Lemma pushHunk_balanced (f : DiffFile.t) (raw : RawHunk) :
  balanced (countAdd (lines raw)) (countDel (lines raw)) f ->
  balanced 0 0 (pushHunk f (convertHunk raw (DiffFile.filename f))).
Proof.
  intros [Ha Hd]. unfold balanced, pushHunk.
  cbn [DiffFile.additions DiffFile.deletions DiffFile.hunks].
  rewrite totalAdditions_app, totalDeletions_app.
  unfold totalAdditions at 2, totalDeletions at 2. cbn [map list_sum].
  destruct (convertHunk_buckets raw (DiffFile.filename f)) as (-> & -> & _).
  rewrite !length_map. unfold countAdd, countDel in *.
  unfold list_sum. cbn [fold_right]. lia.
Qed.

Lemma closeHunk_balanced (cf : option DiffFile.t) (ch : option RawHunk) :
  (forall f, cf = Some f ->
     match ch with
     | Some raw => balanced (countAdd (lines raw)) (countDel (lines raw)) f
     | None => balanced 0 0 f
     end) ->
  forall f, closeHunk cf ch = Some f -> balanced 0 0 f.
Proof.
  intros H f. destruct cf as [f0|], ch as [raw|]; cbn; intro E;
    try discriminate; injection E as <-.
  - apply pushHunk_balanced. now apply H.
  - now apply H.
Qed.

Lemma closeFile_balanced (fs : list DiffFile.t) (cf : option DiffFile.t) :
  Forall (balanced 0 0) fs ->
  (forall f, cf = Some f -> balanced 0 0 f) ->
  Forall (balanced 0 0) (closeFile fs cf).
Proof.
  intros Hfs Hf. destruct cf as [f|]; cbn; [|exact Hfs].
  apply Forall_app. split; [exact Hfs|]. constructor; [now apply Hf|constructor].
Qed.

Lemma countLine_balanced (line : string) (ls : list string) (f : DiffFile.t) :
  balanced (countAdd ls) (countDel ls) f ->
  balanced (countAdd (ls ++ [line])) (countDel (ls ++ [line]))
           (countLine line f).
Proof.
  intros [Ha Hd]. unfold balanced, countLine, countAdd, countDel in *.
  rewrite !filter_app, !length_app. cbn [filter].
  destruct (isAddition line) eqn:Ea.
  - rewrite (isAddition_not_deletion line Ea).
    cbn [DiffFile.additions DiffFile.deletions DiffFile.hunks List.length]. lia.
  - destruct (isDeletion line);
      cbn [DiffFile.additions DiffFile.deletions DiffFile.hunks List.length]; lia.
Qed.

Lemma step_counted (st : state) (line : string) :
  (startsWith "@@" line = true -> parseHunkHeader line <> None) ->
  counted st -> counted (step st line).
Proof.
  intros Hframe (Hfs & Hcf). unfold step.
  destruct (startsWith "diff --git" line).
  { split; cbn [files currentFile currentHunk].
    - apply closeFile_balanced; [exact Hfs|]. now apply closeHunk_balanced.
    - intros f E. injection E as <-. split; reflexivity. }
  destruct (startsWith "index " line || startsWith "---" line
            || startsWith "+++" line); [split; assumption|].
  destruct (startsWith "@@" line).
  { destruct (parseHunkHeader line) as [raw|] eqn:Ep;
      [|exfalso; now apply Hframe].
    split; cbn [files currentFile currentHunk]; [exact Hfs|].
    intros f E.
    assert (Hl : lines raw = []).
    { unfold parseHunkHeader in Ep.
      destruct (search hunkHeaderRe line); [|discriminate].
      injection Ep as <-. reflexivity. }
    rewrite Hl. cbn. now apply (closeHunk_balanced (currentFile st) (currentHunk st)). }
  destruct (currentHunk st) as [h|] eqn:Eh; [|split; [assumption|now rewrite Eh]].
  destruct (isContentLine line); [|split; [assumption|now rewrite Eh]].
  split; cbn [files currentFile currentHunk lines pushRaw]; [exact Hfs|].
  intros f E. destruct (currentFile st) as [f0|]; [|discriminate].
  injection E as <-. apply countLine_balanced. now apply Hcf.
Qed.

Lemma fold_step_counted (l : list string) :
  wellFramed l -> forall st, counted st -> counted (fold_left step l st).
Proof.
  induction l as [|line l IH]; intros Hwf st Hst; [exact Hst|].
  cbn [fold_left]. apply IH.
  - intros x Hx. apply Hwf. now right.
  - apply step_counted; [apply Hwf; now left|exact Hst].
Qed.

Lemma parseLines_counted (ls : list string) :
  wellFramed ls -> Forall (balanced 0 0) (parseLines ls).
Proof.
  intros Hwf. unfold parseLines, finish.
  destruct (fold_step_counted ls Hwf initial) as (Hfs & Hcf).
  { split; cbn; [constructor|discriminate]. }
  apply closeFile_balanced; [exact Hfs|]. now apply closeHunk_balanced.
Qed.

(** C2. On a diff whose [@@] lines are all hunk headers (as in every valid
    unified diff), each file [parseDiff] returns has [additions] equal to the
    sum of the lengths of its hunks' [additions], and [deletions] equal to
    the sum of the lengths of its hunks' [deletions]. *)
Theorem file_counters_match_hunks (diffText : string) :
  wellFramed (split_nl diffText) ->
  forall f, In f (parseDiff diffText) ->
    DiffFile.additions f = totalAdditions (DiffFile.hunks f)
    /\ DiffFile.deletions f = totalDeletions (DiffFile.hunks f).
Proof.
  intros Hwf f Hf.
  pose proof (parseLines_counted (split_nl diffText) Hwf) as H.
  rewrite Forall_forall in H. destruct (H f Hf) as [Ha Hd].
  rewrite Ha, Hd, !Nat.add_0_r. split; reflexivity.
Qed.

Lemma twoFileDiff_wellFramed : wellFramed (split_nl twoFileDiff).
Proof.
  intros line Hin Hat.
  vm_compute in Hin.
  repeat (destruct Hin as [<-|Hin]; [first [discriminate Hat | vm_compute; discriminate]|]).
  contradiction.
Defined.

Lemma file_counters_match_hunks_witness :
  wellFramed (split_nl twoFileDiff)
  /\ Forall (fun f =>
               DiffFile.additions f = totalAdditions (DiffFile.hunks f)
               /\ DiffFile.deletions f = totalDeletions (DiffFile.hunks f))
            (parseDiff twoFileDiff).
Proof.
  split; [exact twoFileDiff_wellFramed|].
  apply Forall_forall.
  exact (file_counters_match_hunks twoFileDiff twoFileDiff_wellFramed).
Defined.

(** *** Splitting a joined buffer *)

Lemma split_nl_noLF (s : string) : Forall (fun l => noLF l = true) (split_nl s).
Proof.
  induction s as [|ch s IH]; cbn [split_nl].
  - constructor; [reflexivity|constructor].
  - destruct (Ascii.eqb ch LF) eqn:E.
    + constructor; [reflexivity|exact IH].
    + destruct (split_nl s) as [|l ls'].
      * constructor; [cbn [noLF]; now rewrite E|constructor].
      * inversion IH as [|? ? Hl Hls]; subst.
        constructor; [cbn [noLF]; now rewrite E, Hl|assumption].
Qed.

Lemma split_nl_line (x t : string) :
  noLF x = true -> split_nl (x ++ String LF t) = x :: split_nl t.
Proof.
  induction x as [|ch x IH]; cbn [noLF append]; intro H.
  - cbn [split_nl]. change (LF =? LF)%char with true. reflexivity.
  - apply andb_true_iff in H. destruct H as [Hc Hx].
    apply negb_true_iff in Hc. cbn [split_nl]. rewrite Hc, (IH Hx). reflexivity.
Qed.

Lemma split_nl_single (x : string) : noLF x = true -> split_nl x = [x].
Proof.
  induction x as [|ch x IH]; cbn [noLF split_nl]; intro H; [reflexivity|].
  apply andb_true_iff in H. destruct H as [Hc Hx].
  apply negb_true_iff in Hc. rewrite Hc, (IH Hx). reflexivity.
Qed.

Lemma split_join (ls : list string) :
  ls <> [] -> Forall (fun l => noLF l = true) ls ->
  split_nl (join_nl ls) = ls.
Proof.
  induction ls as [|x ls IH]; intros Hne H; [contradiction|].
  inversion H as [|? ? Hx Hls]; subst.
  destruct ls as [|y ls].
  - cbn. now apply split_nl_single.
  - unfold join_nl in *. cbn [String.concat].
    change (x ++ String LF "" ++ ?t) with (x ++ String LF t).
    rewrite (split_nl_line _ _ Hx). f_equal. apply IH; [discriminate|exact Hls].
Qed.

Lemma filter_filter_implied {A : Type} (p q : A -> bool) (l : list A) :
  (forall x, p x = true -> q x = true) ->
  filter p (filter q l) = filter p l.
Proof.
  intros Hpq. induction l as [|x l IH]; [reflexivity|].
  cbn [filter]. destruct (q x) eqn:Eq.
  - cbn [filter]. now rewrite IH.
  - rewrite IH. destruct (p x) eqn:Ep; [|reflexivity].
    rewrite (Hpq x Ep) in Eq. discriminate.
Qed.

Lemma reclassify_convertHunk (raw : RawHunk) (filename : string) :
  Forall (fun l => noLF l = true) (lines raw) ->
  reclassify (DiffHunk.content (convertHunk raw filename))
  = (DiffHunk.additions (convertHunk raw filename),
     DiffHunk.deletions (convertHunk raw filename)).
Proof.
  intros Hraw.
  destruct (convertHunk_buckets raw filename) as (-> & -> & ->).
  unfold reclassify. cbv zeta. fold isAddition. fold isDeletion.
  change (fun l => isAddition l) with isAddition.
  change (fun l => isDeletion l) with isDeletion.
  assert (Ha : filter isAddition (filter isKept (lines raw))
               = filter isAddition (lines raw)).
  { apply filter_filter_implied. intros x Hx. unfold isKept. now rewrite Hx. }
  assert (Hd : filter isDeletion (filter isKept (lines raw))
               = filter isDeletion (lines raw)).
  { apply filter_filter_implied. intros x Hx. unfold isKept. rewrite Hx.
    now rewrite orb_true_r. }
  destruct (filter isKept (lines raw)) as [|k ks] eqn:Ek.
  - cbn in Ha, Hd. rewrite <- Ha, <- Hd. reflexivity.
  - rewrite split_join.
    + now rewrite Ha, Hd.
    + discriminate.
    + rewrite <- Ek. apply Forall_forall. intros x Hx.
      apply filter_In in Hx. rewrite Forall_forall in Hraw. now apply Hraw.
Qed.

Lemma parseDiff_noLF (diffText : string) :
  Forall (fileOK (fun raw => Forall (fun l => noLF l = true) (lines raw)))
         (parseDiff diffText).
Proof.
  apply parseLines_OK.
  - intros line raw _ _ Hp. unfold parseHunkHeader in Hp.
    destruct (search hunkHeaderRe line); [|discriminate].
    injection Hp as <-. constructor.
  - intros line raw Hin Hraw. cbn [pushRaw lines].
    apply Forall_app. split; [exact Hraw|].
    constructor; [|constructor].
    pose proof (split_nl_noLF diffText) as H.
    rewrite Forall_forall in H. now apply H.
Qed.

(** C10. For every hunk [parseDiff] produces, splitting its [content] into
    lines and classifying them again (a line with [+] but not [+++] is an
    addition, one with [-] but not [---] a deletion, markers stripped) gives
    back the hunk's [additions] and [deletions], in order. *)
Theorem content_reclassifies (diffText : string) (f : DiffFile.t)
    (h : DiffHunk.t) :
  In f (parseDiff diffText) -> In h (DiffFile.hunks f) ->
  reclassify (DiffHunk.content h)
  = (DiffHunk.additions h, DiffHunk.deletions h).
Proof.
  intros Hf Hh.
  pose proof (parseDiff_noLF diffText) as HOK.
  rewrite Forall_forall in HOK. specialize (HOK f Hf).
  unfold fileOK in HOK. rewrite Forall_forall in HOK.
  destruct (HOK h Hh) as (raw & Hraw & ->).
  now apply reclassify_convertHunk.
Qed.

Lemma content_reclassifies_witness :
  Forall (fun f =>
            Forall (fun h => reclassify (DiffHunk.content h)
                             = (DiffHunk.additions h, DiffHunk.deletions h))
                   (DiffFile.hunks f))
         (parseDiff twoFileDiff).
Proof.
  apply Forall_forall. intros f Hf.
  apply Forall_forall. intros h Hh.
  exact (content_reclassifies twoFileDiff f h Hf Hh).
Defined.

(** *** Lines the parser skips *)

(** A line met while no hunk is open changes nothing, unless it is a file
    header or a hunk header. *)
Lemma line_without_hunk_skipped (st : state) (line : string) :
  currentHunk st = None ->
  startsWith "diff --git" line = false ->
  startsWith "@@" line = false ->
  step st line = st.
Proof.
  intros Hh Hd Ha. unfold step. rewrite Hd, Ha, Hh.
  destruct (startsWith "index " line || startsWith "---" line
            || startsWith "+++" line); reflexivity.
Qed.

Lemma step_without_file (st : state) (line : string) :
  currentFile st = None ->
  startsWith "diff --git" line = false ->
  currentFile (step st line) = None /\ files (step st line) = files st.
Proof.
  intros Hf Hd. unfold step. rewrite Hd.
  destruct (startsWith "index " line || startsWith "---" line
            || startsWith "+++" line); [now split|].
  destruct (startsWith "@@" line).
  { cbn [currentFile files]. rewrite Hf. now split. }
  destruct (currentHunk st); [|now split].
  destruct (isContentLine line); [|now split].
  cbn [currentFile files]. rewrite Hf. now split.
Qed.

Lemma step_fileless (st1 st2 : state) (line : string) :
  fileless st1 st2 -> fileless (step st1 line) (step st2 line).
Proof.
  intros [->|(Hfs & H1 & H2)]; [now left|].
  destruct (startsWith "diff --git" line) eqn:Hd.
  - left. unfold step. rewrite Hd, H1, H2, Hfs. reflexivity.
  - right.
    destruct (step_without_file st1 line H1 Hd) as [E1 F1].
    destruct (step_without_file st2 line H2 Hd) as [E2 F2].
    repeat split; congruence.
Qed.

Lemma fold_step_fileless (ls : list string) :
  forall st1 st2, fileless st1 st2 ->
                  fileless (fold_left step ls st1) (fold_left step ls st2).
Proof.
  induction ls as [|line ls IH]; intros st1 st2 H; [exact H|].
  cbn [fold_left]. apply IH. now apply step_fileless.
Qed.

Lemma finish_fileless (st1 st2 : state) :
  fileless st1 st2 -> finish st1 = finish st2.
Proof.
  intros [->|(Hfs & H1 & H2)]; [reflexivity|].
  unfold finish. now rewrite H1, H2, Hfs.
Qed.

(** Whatever precedes the first file header (content lines, hunk headers and
    their bodies) leaves no trace in the result. *)
Lemma before_first_file_skipped (pre ls : list string) :
  Forall (fun line => startsWith "diff --git" line = false) pre ->
  parseLines (pre ++ ls) = parseLines ls.
Proof.
  intros Hpre. unfold parseLines. rewrite fold_left_app.
  apply finish_fileless, fold_step_fileless. right.
  assert (H : forall st, currentFile st = None ->
              currentFile (fold_left step pre st) = None
              /\ files (fold_left step pre st) = files st).
  { induction Hpre as [|line pre Hline _ IH]; intros st H0; [now split|].
    cbn [fold_left].
    destruct (step_without_file st line H0 Hline) as [E F].
    destruct (IH (step st line) E) as [E' F']. split; congruence. }
  destruct (H initial eq_refl) as [Hc Hf]. repeat split; [exact Hf|exact Hc].
Qed.

Lemma at_not_structural (line : string) :
  startsWith "@@" line = true ->
  startsWith "diff --git" line = false
  /\ startsWith "index " line || startsWith "---" line
     || startsWith "+++" line = false.
Proof.
  intros Ha. destruct line as [|c0 r]; [discriminate|]. unfold startsWith in *.
  cbn [String.prefix] in *.
  destruct (ascii_dec "@" c0) as [<-|]; [split; reflexivity|discriminate].
Qed.

(** A line that starts with [@@] without being a header, met while no hunk
    is open, changes nothing. *)
Lemma stray_header_without_hunk (st : state) (line : string) :
  startsWith "@@" line = true ->
  parseHunkHeader line = None ->
  currentHunk st = None ->
  step st line = st.
Proof.
  intros Ha Hp Hh. destruct (at_not_structural line Ha) as [Hd Hi].
  unfold step. rewrite Hd, Hi, Ha, Hp, Hh.
  destruct st as [fs cf ch]. cbn in *. subst ch.
  destruct cf; reflexivity.
Qed.

(** A file header whose paths cannot be read opens a file named [unknown]. *)
Lemma unreadable_file_header (st : state) (line : string) :
  startsWith "diff --git" line = true ->
  search fileHeaderRe line = None ->
  currentFile (step st line)
  = Some {| DiffFile.filename := "unknown"; DiffFile.hunks := [];
            DiffFile.additions := 0; DiffFile.deletions := 0 |}
  /\ currentHunk (step st line) = None.
Proof.
  intros Hd Hs. unfold step. rewrite Hd. cbn [currentFile currentHunk].
  unfold headerFilename. rewrite Hs. split; reflexivity.
Qed.

(** With a hunk open, a line that starts with [@@] without being a header
    emits the open hunk and leaves it open. *)
Lemma stray_header_step (st : state) (line : string) (f : DiffFile.t)
    (h : RawHunk) :
  startsWith "@@" line = true ->
  parseHunkHeader line = None ->
  currentFile st = Some f -> currentHunk st = Some h ->
  step st line
  = {| files := files st;
       currentFile := Some (pushHunk f (convertHunk h (DiffFile.filename f)));
       currentHunk := Some h |}.
Proof.
  intros Ha Hp Hf Hh. destruct (at_not_structural line Ha) as [Hd Hi].
  unfold step. rewrite Hd, Hi, Ha, Hp, Hf, Hh. reflexivity.
Qed.

(** An unparseable line changes nothing, with a hunk open or not. *)
Lemma unparseable_line_skipped (st : state) (line : string) :
  unparseable line = true -> step st line = st.
Proof.
  unfold unparseable. intros H.
  apply andb_true_iff in H. destruct H as [H Hc].
  apply andb_true_iff in H. destruct H as [Hd Ha].
  apply negb_true_iff in Hd, Ha, Hc.
  unfold step. rewrite Hd, Ha, Hc.
  destruct (startsWith "index " line || startsWith "---" line
            || startsWith "+++" line); [reflexivity|].
  destruct (currentHunk st); reflexivity.
Qed.

Lemma unparseable_lines_dropped (ls : list string) :
  parseLines (filter (fun line => negb (unparseable line)) ls) = parseLines ls.
Proof.
  unfold parseLines. f_equal. generalize initial.
  induction ls as [|line ls IH]; intros st; [reflexivity|].
  cbn [filter fold_left]. destruct (unparseable line) eqn:E; cbn [negb].
  - rewrite (unparseable_line_skipped st line E). apply IH.
  - cbn [fold_left]. apply IH.
Qed.

(** C9 (amended). [parseDiff] is a total function: nothing in it throws.  An
    unparseable line (no file header, no hunk header, no content line)
    changes nothing, met inside an open hunk or outside, so the result is
    the one of the input without these lines; a line met while no hunk is
    open, other than a file or hunk header, changes nothing; whatever
    precedes the first [diff --git] line (hunk headers and their bodies
    included) leaves no trace in the result; a line that starts with [@@]
    without matching the header pattern opens no hunk and, met while no hunk
    is open, changes nothing; a [diff --git] line whose paths cannot be read
    still opens a file, named [unknown]. *)
Theorem malformed_input_skipped :
  ((forall st line, unparseable line = true -> step st line = st)
   /\ (forall diffText,
         parseLines (filter (fun line => negb (unparseable line))
                            (split_nl diffText))
         = parseDiff diffText))
  /\ (forall st line,
      currentHunk st = None ->
      startsWith "diff --git" line = false ->
      startsWith "@@" line = false ->
      step st line = st)
  /\ (forall pre ls,
        Forall (fun line => startsWith "diff --git" line = false) pre ->
        parseLines (pre ++ ls) = parseLines ls)
  /\ (forall st line,
        startsWith "@@" line = true -> parseHunkHeader line = None ->
        currentHunk (step st line) = currentHunk st
        /\ (currentHunk st = None -> step st line = st))
  /\ (forall st line,
        startsWith "diff --git" line = true ->
        search fileHeaderRe line = None ->
        currentFile (step st line)
        = Some {| DiffFile.filename := "unknown"; DiffFile.hunks := [];
                  DiffFile.additions := 0; DiffFile.deletions := 0 |}
        /\ currentHunk (step st line) = None).
Proof.
  split.
  { split; [exact unparseable_line_skipped|].
    intros diffText. apply unparseable_lines_dropped. }
  split; [exact line_without_hunk_skipped|].
  split; [exact before_first_file_skipped|].
  split; [|exact unreadable_file_header].
  intros st line Ha Hp. split; [|now apply stray_header_without_hunk].
  destruct (at_not_structural line Ha) as [Hd Hi].
  unfold step. rewrite Hd, Hi, Ha, Hp. reflexivity.
Qed.

(** A line without reading inside an open hunk, two orphan lines ahead of a
    diff, and a file header without paths. *)
Lemma malformed_input_skipped_witness :
  step {| files := [];
          currentFile := Some {| DiffFile.filename := "x.ts";
                                 DiffFile.hunks := [];
                                 DiffFile.additions := 1;
                                 DiffFile.deletions := 0 |};
          currentHunk := Some {| oldStart := Int 1; oldLines := Int 1;
                                 newStart := Int 1; newLines := Int 2;
                                 lines := ["+a"] |} |}
       "\ No newline at end of file"
  = {| files := [];
       currentFile := Some {| DiffFile.filename := "x.ts";
                              DiffFile.hunks := [];
                              DiffFile.additions := 1;
                              DiffFile.deletions := 0 |};
       currentHunk := Some {| oldStart := Int 1; oldLines := Int 1;
                              newStart := Int 1; newLines := Int 2;
                              lines := ["+a"] |} |}
  /\ parseLines (["@@ -7 +7 @@"; "+orphan"] ++ split_nl strayHeaderRemoved)
     = parseLines (split_nl strayHeaderRemoved)
  /\ currentFile (step initial "diff --git")
     = Some {| DiffFile.filename := "unknown"; DiffFile.hunks := [];
               DiffFile.additions := 0; DiffFile.deletions := 0 |}.
Proof.
  split; [|split].
  - apply (proj1 (proj1 malformed_input_skipped)). reflexivity.
  - apply (proj1 (proj2 (proj2 malformed_input_skipped))).
    repeat constructor.
  - apply (proj2 (proj2 (proj2 (proj2 malformed_input_skipped)))
             initial "diff --git"); reflexivity.
Defined.

(** C9 as stated fails twice. A line that starts with [@@] without matching
    the header pattern is not skipped when a hunk is open: the open hunk is
    emitted and stays open, so it is emitted again with the lines that
    follow (one hunk of two additions becomes two hunks).  And a file header
    whose paths cannot be read still emits a file, named [unknown]. *)
Lemma unparseable_lines_leave_traces :
  parseHunkHeader "@@ bogus" = None
  /\ map outline (parseDiff strayHeaderDiff)
     = [("x.ts", [["a"]; ["a"; "b"]], 2)]
  /\ map outline (parseDiff strayHeaderRemoved)
     = [("x.ts", [["a"; "b"]], 2)]
  /\ search fileHeaderRe "diff --git" = None
  /\ map outline (parseDiff "diff --git") = [("unknown", [], 0)].
Proof. repeat split; vm_compute; reflexivity. Qed.
(** *** The parse of a well-framed diff *)

Lemma grown_0 (g : DiffFile.t) : grown g [] 0 0 = g.
Proof.
  destruct g as [n hs a d]. unfold grown. cbn.
  now rewrite app_nil_r, !Nat.add_0_r.
Qed.

Lemma grown_grown (g : DiffFile.t) hs1 hs2 a1 a2 d1 d2 :
  grown (grown g hs1 a1 d1) hs2 a2 d2
  = grown g (hs1 ++ hs2) (a1 + a2) (d1 + d2).
Proof.
  unfold grown. cbn. now rewrite <- app_assoc, <- !Nat.add_assoc.
Qed.

Lemma extended_0 (raw : RawHunk) : extended raw [] = raw.
Proof. destruct raw. unfold extended. cbn. now rewrite app_nil_r. Qed.

Lemma extended_extended (raw : RawHunk) ls1 ls2 :
  extended (extended raw ls1) ls2 = extended raw (ls1 ++ ls2).
Proof. unfold extended. cbn. now rewrite <- app_assoc. Qed.

Lemma skipped_not_kept (line : string) :
  isSkipped line = true ->
  isAddition line = false /\ isDeletion line = false /\ isContext line = false.
Proof.
  unfold isSkipped, isAddition, isDeletion, isContext, startsWith.
  destruct line as [|c r]; [discriminate|]. cbn [String.prefix String.eqb].
  destruct (ascii_dec "i" c) as [<-|]; [intros _; repeat split|].
  destruct (ascii_dec "-" c) as [<-|].
  { cbn. rewrite orb_false_r. intros ->. now rewrite andb_false_r. }
  destruct (ascii_dec "+" c) as [<-|]; [|discriminate].
  cbn. intros ->. now rewrite andb_false_r.
Qed.

(** One line under an open hunk. *)
Lemma step_plain (fs : list DiffFile.t) (f : DiffFile.t) (raw : RawHunk)
    (line : string) :
  plain line = true ->
  step {| files := fs; currentFile := Some f; currentHunk := Some raw |} line
  = {| files := fs;
       currentFile := Some (grown f [] (countAdd [line]) (countDel [line]));
       currentHunk := Some (extended raw (filter isKept [line])) |}.
Proof.
  unfold plain. intros H. apply andb_true_iff in H. destruct H as [Hd Ha].
  apply negb_true_iff in Hd, Ha.
  unfold step. rewrite Hd, Ha. cbn [files currentFile currentHunk].
  unfold countAdd, countDel. cbn [filter].
  change (isKept line) with (isAddition line || isDeletion line || isContext line).
  destruct (isSkipped line) eqn:Es.
  - destruct (skipped_not_kept line Es) as (-> & -> & ->).
    unfold isSkipped in Es. rewrite Es. cbn [orb List.length].
    now rewrite grown_0, extended_0.
  - pose proof Es as Es'. unfold isSkipped in Es'. rewrite Es'.
    apply orb_false_iff in Es'. destruct Es' as [Es' Hp].
    apply orb_false_iff in Es'. destruct Es' as [_ Hm].
    assert (HA : isAddition line = startsWith "+" line)
      by (unfold isAddition; rewrite Hp; apply andb_true_r).
    assert (HD : isDeletion line = startsWith "-" line)
      by (unfold isDeletion; rewrite Hm; apply andb_true_r).
    unfold isContentLine, countLine, isContext.
    destruct (startsWith "+" line) eqn:E1.
    { rewrite (isAddition_not_deletion line HA), HA.
      cbn [orb option_map List.length]. unfold grown, extended, pushRaw.
      destruct f; cbn. now rewrite app_nil_r, Nat.add_1_r, Nat.add_0_r. }
    rewrite HA, HD.
    destruct (startsWith "-" line) eqn:E2.
    { cbn [orb option_map List.length]. unfold grown, extended, pushRaw.
      destruct f; cbn. now rewrite app_nil_r, Nat.add_1_r, Nat.add_0_r. }
    cbn [orb].
    destruct (startsWith " " line || (line =? "")%string) eqn:E3.
    { cbn [option_map List.length]. unfold extended, pushRaw.
      now rewrite grown_0. }
    cbn [List.length]. now rewrite grown_0, extended_0.
Qed.

Lemma countAdd_cons (line : string) (ls : list string) :
  countAdd (line :: ls) = countAdd [line] + countAdd ls.
Proof. unfold countAdd. cbn [filter]. destruct (isAddition line); reflexivity. Qed.

Lemma countDel_cons (line : string) (ls : list string) :
  countDel (line :: ls) = countDel [line] + countDel ls.
Proof. unfold countDel. cbn [filter]. destruct (isDeletion line); reflexivity. Qed.

(** The lines under an open hunk. *)
Lemma fold_step_body (ls : list string) :
  forall fs f raw,
    forallb plain ls = true ->
    fold_left step ls
      {| files := fs; currentFile := Some f; currentHunk := Some raw |}
    = {| files := fs;
         currentFile := Some (grown f [] (countAdd ls) (countDel ls));
         currentHunk := Some (extended raw (filter isKept ls)) |}.
Proof.
  induction ls as [|line ls IH]; intros fs f raw H.
  - cbn [fold_left filter]. now rewrite grown_0, extended_0.
  - cbn [forallb] in H. apply andb_true_iff in H. destruct H as [Hl Hls].
    cbn [fold_left]. rewrite (step_plain fs f raw line Hl), (IH _ _ _ Hls).
    rewrite grown_grown, extended_extended, <- countAdd_cons, <- countDel_cons.
    cbn [app filter]. destruct (isKept line); reflexivity.
Qed.

Lemma parseHunkHeader_lines (line : string) (raw : RawHunk) :
  parseHunkHeader line = Some raw -> lines raw = [].
Proof.
  unfold parseHunkHeader. destruct (search hunkHeaderRe line); [|discriminate].
  intros E. injection E as <-. reflexivity.
Qed.

Lemma isAddition_kept (line : string) : isAddition line = true -> isKept line = true.
Proof. unfold isKept. now intros ->. Qed.

Lemma isDeletion_kept (line : string) : isDeletion line = true -> isKept line = true.
Proof. unfold isKept. intros ->. now rewrite orb_true_r. Qed.

(** What [convertHunk] makes of a header and the lines kept under it. *)
Lemma convertHunk_hunkOf (h : hunkText) (raw : RawHunk) (name : string) :
  parseHunkHeader (header h) = Some raw ->
  convertHunk (extended raw (filter isKept (body h))) name = hunkOf name h.
Proof.
  intros Hp. unfold convertHunk, extended, hunkOf, headerStart, headerEnd, lastLine.
  rewrite Hp, (parseHunkHeader_lines _ _ Hp). cbn [lines newStart newLines app].
  rewrite pushLines_spec. cbn [app].
  rewrite (filter_filter_implied isAddition isKept _ isAddition_kept).
  rewrite (filter_filter_implied isDeletion isKept _ isDeletion_kept).
  rewrite (filter_filter_implied isKept isKept _ (fun x H => H)).
  reflexivity.
Qed.

Lemma flushed_Some (st : state) (g : DiffFile.t) :
  flushed st = Some g -> exists f, currentFile st = Some f.
Proof.
  unfold flushed. destruct (currentFile st) as [f|]; [eauto|].
  destruct (currentHunk st); discriminate.
Qed.

(** A hunk header and the lines under it. *)
Lemma fold_step_hunk (h : hunkText) (st : state) (g : DiffFile.t) :
  flushed st = Some g -> framedHunk h ->
  files (fold_left step (renderHunk h) st) = files st
  /\ flushed (fold_left step (renderHunk h) st)
     = Some (grown g [hunkOf (DiffFile.filename g) h]
                   (countAdd (body h)) (countDel (body h))).
Proof.
  intros Hg (Ha & Hp & Hb).
  destruct (parseHunkHeader (header h)) as [raw|] eqn:Ep; [clear Hp|contradiction].
  destruct (at_not_structural _ Ha) as [Hd Hi].
  unfold renderHunk. cbn [fold_left].
  assert (E : step st (header h)
              = {| files := files st; currentFile := Some g;
                   currentHunk := Some raw |}).
  { unfold step. rewrite Hd, Hi, Ha, Ep. fold (flushed st). now rewrite Hg. }
  rewrite E, (fold_step_body _ _ _ _ Hb). cbn [files]. split; [reflexivity|].
  unfold flushed. cbn [currentFile currentHunk closeHunk].
  f_equal. rewrite (convertHunk_hunkOf h raw _ Ep).
  unfold pushHunk, grown. cbn. now rewrite app_nil_r.
Qed.

Lemma fold_step_hunks (hs : list hunkText) :
  forall st g,
    flushed st = Some g -> Forall framedHunk hs ->
    files (fold_left step (flat_map renderHunk hs) st) = files st
    /\ flushed (fold_left step (flat_map renderHunk hs) st)
       = Some (grown g (map (hunkOf (DiffFile.filename g)) hs)
                     (list_sum (map (fun h => countAdd (body h)) hs))
                     (list_sum (map (fun h => countDel (body h)) hs))).
Proof.
  induction hs as [|h hs IH]; intros st g Hg Hhs.
  - cbn. now rewrite grown_0.
  - inversion Hhs as [|? ? Hh Hrest]; subst.
    cbn [flat_map]. rewrite fold_left_app.
    destruct (fold_step_hunk h st g Hg Hh) as [Ef Eg].
    destruct (IH _ _ Eg Hrest) as [Ef' Eg'].
    split; [congruence|]. rewrite Eg', grown_grown. reflexivity.
Qed.

Lemma fold_step_meta (ls : list string) (st : state) :
  currentHunk st = None -> forallb plain ls = true ->
  fold_left step ls st = st.
Proof.
  intros Hh. induction ls as [|line ls IH]; intros H; [reflexivity|].
  cbn [forallb] in H. apply andb_true_iff in H. destruct H as [Hl Hls].
  unfold plain in Hl. apply andb_true_iff in Hl. destruct Hl as [Hd Ha].
  apply negb_true_iff in Hd, Ha.
  cbn [fold_left]. rewrite (line_without_hunk_skipped st line Hh Hd Ha).
  now apply IH.
Qed.

Lemma fold_step_file (f : fileText) (st : state) :
  framedFile f ->
  closeFile (files (fold_left step (renderFile f) st))
            (flushed (fold_left step (renderFile f) st))
  = (closeFile (files st) (flushed st) ++ [fileOf f])%list.
Proof.
  intros (Hh & Hm & Hhs). unfold renderFile. cbn [fold_left].
  rewrite fold_left_app.
  set (fresh := {| DiffFile.filename := headerFilename (fileHeader f);
                   DiffFile.hunks := [];
                   DiffFile.additions := 0; DiffFile.deletions := 0 |}).
  assert (E : step st (fileHeader f)
              = {| files := closeFile (files st) (flushed st);
                   currentFile := Some fresh; currentHunk := None |}).
  { unfold step. now rewrite Hh. }
  rewrite E.
  rewrite (fold_step_meta (meta f)
             {| files := closeFile (files st) (flushed st);
                currentFile := Some fresh; currentHunk := None |} eq_refl Hm).
  destruct (fold_step_hunks (hunkTexts f)
              {| files := closeFile (files st) (flushed st);
                 currentFile := Some fresh; currentHunk := None |}
              fresh eq_refl Hhs) as [Ef Eg].
  rewrite Ef, Eg. reflexivity.
Qed.

Lemma fold_step_render (fs : list fileText) :
  forall st,
    Forall framedFile fs ->
    closeFile (files (fold_left step (render fs) st))
              (flushed (fold_left step (render fs) st))
    = (closeFile (files st) (flushed st) ++ map fileOf fs)%list.
Proof.
  induction fs as [|f fs IH]; intros st H.
  - cbn. now rewrite app_nil_r.
  - inversion H as [|? ? Hf Hfs]; subst.
    unfold render. cbn [flat_map]. rewrite fold_left_app.
    fold (render fs). rewrite (IH _ Hfs), (fold_step_file f st Hf).
    now rewrite <- app_assoc.
Qed.


Lemma parseLines_render (fs : list fileText) :
  Forall framedFile fs -> parseLines (render fs) = map fileOf fs.
Proof.
  intros H. unfold parseLines, finish.
  exact (fold_step_render fs initial H).
Qed.

Lemma Forall2_map_l {A B : Type} (P : B -> A -> Prop) (f : A -> B)
    (l : list A) :
  Forall (fun x => P (f x) x) l -> Forall2 P (map f l) l.
Proof. induction 1; cbn [map]; constructor; assumption. Qed.

(** The hunks of a framed file text, against their header lines. *)
Lemma fileOf_ranges (ft : fileText) :
  framedFile ft ->
  Forall2 (fun h ht =>
             exists raw,
               parseHunkHeader (header ht) = Some raw
               /\ DiffHunk.startLine h = newStart raw
               /\ DiffHunk.endLine h
                  = jssub (jsadd (newStart raw) (newLines raw)) (Int 1))
          (DiffFile.hunks (fileOf ft)) (hunkTexts ft).
Proof.
  intros (_ & _ & Hhs). unfold fileOf. cbn [DiffFile.hunks].
  apply Forall2_map_l. eapply Forall_impl; [|exact Hhs].
  intros ht (_ & Hp & _).
  destruct (parseHunkHeader (header ht)) as [raw|] eqn:E; [|contradiction].
  exists raw. unfold hunkOf, headerStart, headerEnd, lastLine.
  cbn [DiffHunk.startLine DiffHunk.endLine]. rewrite E. repeat split.
Qed.



End DiffProps.

(* ================================================================== *)
(** * Properties of the complexity analyzer *)

Module ComplexityProps.
Import Js Re Complexity ComplexitySpec.
Local Open Scope Z_scope.

Lemma severityOf_critical (value threshold : Z) :
  severityOf value threshold = critical
  <-> (inject_Z threshold * 1.5 < inject_Z value)%Q.
Proof.
  unfold severityOf, Qgtb.
  destruct (Qle_bool (inject_Z value) (inject_Z threshold * 1.5)) eqn:E; simpl.
  - apply Qle_bool_iff in E. split; [discriminate|].
    intro H. exfalso. exact (Qlt_not_le _ _ H E).
  - split; [intros _|reflexivity].
    apply Qnot_le_lt. intro H. apply Qle_bool_iff in H. congruence.
Qed.

Lemma severityOf_warning (value threshold : Z) :
  severityOf value threshold = warning
  <-> ~ (inject_Z threshold * 1.5 < inject_Z value)%Q.
Proof.
  rewrite <- severityOf_critical.
  destruct (severityOf value threshold); split; congruence.
Qed.

Lemma checkStep_spec metrics thresholds flags m :
  checkStep metrics thresholds flags m =
  if thresholds m <? metrics m
  then (flags ++ [ComplexityFlag.mk m (metrics m) (thresholds m)
                    (severityOf (metrics m) (thresholds m))])%list
  else flags.
Proof. unfold checkStep. now rewrite Z.gtb_ltb. Qed.

Lemma checkSteps_filter metrics thresholds (ms : list metric) :
  forall flags,
    fold_left (checkStep metrics thresholds) ms flags
    = (flags ++ map (flagOf metrics thresholds)
                 (filter (fun m => thresholds m <? metrics m) ms))%list.
Proof.
  induction ms as [|m ms IH]; intro flags; cbn [fold_left filter].
  - now rewrite app_nil_r.
  - rewrite IH, checkStep_spec.
    destruct (thresholds m <? metrics m); cbn [map].
    + now rewrite <- app_assoc.
    + reflexivity.
Qed.

Lemma checks_complete (m : metric) : In m checks.
Proof. destruct m; cbn; auto 6. Qed.

Lemma checks_NoDup : NoDup checks.
Proof.
  unfold checks.
  repeat (constructor; [cbn [In]; intuition discriminate|]).
  constructor.
Qed.

(** C8. For metric values and thresholds that binary64 compares exactly
    (integers below 2^51 in absolute value), and for every metric,
    [checkThresholds] emits a flag for it exactly when its value is strictly
    above its threshold (so none when value <= threshold), at most one flag
    per metric; a flag records that value and threshold, and its severity is
    [critical] exactly when the value is above 1.5 times the threshold and
    [warning] exactly when it is not. *)
Theorem checkThresholds_flags (metrics : ComplexityMetrics)
    (thresholds : ComplexityThresholds) :
  exactRange metrics -> exactRange thresholds ->
  let flags := checkThresholds metrics thresholds in
  (forall m : metric,
      (exists f, In f flags /\ ComplexityFlag.metric f = m)
      <-> thresholds m < metrics m)
  /\ (forall f, In f flags ->
        ComplexityFlag.value f = metrics (ComplexityFlag.metric f)
        /\ ComplexityFlag.threshold f = thresholds (ComplexityFlag.metric f)
        /\ (ComplexityFlag.severity f = critical
            <-> (inject_Z (ComplexityFlag.threshold f) * 1.5
                 < inject_Z (ComplexityFlag.value f))%Q)
        /\ (ComplexityFlag.severity f = warning
            <-> ~ (inject_Z (ComplexityFlag.threshold f) * 1.5
                   < inject_Z (ComplexityFlag.value f))%Q))
  /\ NoDup (map ComplexityFlag.metric flags).
Proof.
  intros _ _. cbv zeta. unfold checkThresholds.
  rewrite checkSteps_filter. cbn [app].
  split; [|split].
  - intro m. split.
    + intros [f [Hin Hm]].
      apply in_map_iff in Hin. destruct Hin as [m' [Hf Hin]].
      apply filter_In in Hin. destruct Hin as [_ Hlt].
      subst f. cbn in Hm. subst m'. now apply Z.ltb_lt.
    + intro Hlt. exists (flagOf metrics thresholds m). split; [|reflexivity].
      apply in_map, filter_In. split; [apply checks_complete|].
      now apply Z.ltb_lt.
  - intros f Hin.
    apply in_map_iff in Hin. destruct Hin as [m [Hf _]]. subst f.
    cbn [flagOf ComplexityFlag.value ComplexityFlag.threshold
         ComplexityFlag.metric ComplexityFlag.severity].
    repeat split; try apply severityOf_critical; apply severityOf_warning.
  - rewrite map_map. cbn [flagOf ComplexityFlag.metric].
    rewrite map_id. apply NoDup_filter, checks_NoDup.
Qed.

(** Depth 5 against 3 and 80 lines against 50 are flagged, 3 parameters
    against 4 are not. *)
Lemma checkThresholds_flags_witness :
  ((exists f, In f (checkThresholds deepMetrics defaultThresholds)
              /\ ComplexityFlag.metric f = nestingDepth)
   <-> defaultThresholds nestingDepth < deepMetrics nestingDepth)
  /\ ((exists f, In f (checkThresholds deepMetrics defaultThresholds)
               /\ ComplexityFlag.metric f = parameterCount)
      <-> defaultThresholds parameterCount < deepMetrics parameterCount)
  /\ NoDup (map ComplexityFlag.metric
                (checkThresholds deepMetrics defaultThresholds)).
Proof.
  assert (Hm : exactRange deepMetrics) by (intros []; cbn; lia).
  assert (Ht : exactRange defaultThresholds) by (intros []; cbn; lia).
  destruct (checkThresholds_flags deepMetrics defaultThresholds Hm Ht)
    as (H1 & _ & H3).
  split; [apply H1|]. split; [apply H1|exact H3].
Defined.

(** C4 (defect). One [else if (] is counted twice: the plain [if (] pattern
    matches inside it and the [else if (] pattern matches it again, so a line
    with a single [else if (] has complexity 3 where a single [if (] has 2. *)
Theorem else_if_counted_twice :
  calculateCyclomaticComplexity elseIfLine = 3
  /\ map (fun pattern => countMatches pattern elseIfLine) patterns
     = [1; 1; 0; 0; 0; 0; 0; 0; 0; 0]%nat
  /\ calculateCyclomaticComplexity ifLine = 2.
Proof. repeat split; vm_compute; reflexivity. Qed.

(** The metric is one plus the number of matches of each pattern. *)
Lemma cyclomatic_sum (code : string) :
  calculateCyclomaticComplexity code
  = 1 + Z.of_nat (list_sum (map (fun pattern => countMatches pattern code)
                                patterns)).
Proof.
  unfold calculateCyclomaticComplexity.
  generalize patterns as ps. intro ps.
  assert (H : forall acc,
             fold_left (fun complexity pattern =>
                          complexity + Z.of_nat (countMatches pattern code))
                       ps acc
             = acc + Z.of_nat (list_sum (map (fun pattern =>
                                                countMatches pattern code) ps))).
  { induction ps as [|p ps IH]; intro acc; cbn [fold_left map].
    - cbn. lia.
    - rewrite IH. unfold list_sum. cbn [fold_right]. lia. }
  apply H.
Qed.

(** The binary64 score on one input: 2.3, where the exact average times 5 is
    2.35. *)
Example score_on_tie :
  PrimFloat.eqb
    (calculateScore (mkMetrics 3 4 1 10 5) (mkMetrics 3 10 4 50 10))
    0x1.2666666666666p+1%float = true.
Proof. vm_compute. reflexivity. Qed.
End ComplexityProps.

(* ================================================================== *)
(** * Properties of the orchestrator *)

Module ReviewProps.
Import Js Complexity Review ReviewSpec.

Section Facts.
Context {ext : External}.

Lemma runSummary_eq options hunk filename result w :
  runSummary options hunk filename result w =
  if Options.summary options then
    match generateSummary (DiffHunk.content hunk)
            (if truthy (DiffHunk.context hunk) then DiffHunk.context hunk else "")
            filename (Options.model options) w with
    | (Returned s, w') => (Returned (setSummary s result), w')
    | (Thrown _, w') => (Returned result, w')
    end
  else (Returned result, w).
Proof.
  unfold runSummary. destruct (Options.summary options); [|reflexivity].
  unfold try_catch, bind, ret.
  destruct (generateSummary _ _ _ _ w) as [[s|e] w']; reflexivity.
Qed.

Lemma runPatterns_eq options hunk filename result w :
  runPatterns options hunk filename result w =
  if Options.patterns options then
    if truthy (trim (addedCode hunk)) then
      match detectPatterns (addedCode hunk) filename (Options.model options) w with
      | (Returned p, w') => (Returned (setPatterns p result), w')
      | (Thrown _, w') => (Returned result, w')
      end
    else (Returned result, w)
  else (Returned result, w).
Proof.
  unfold runPatterns. destruct (Options.patterns options); [|reflexivity].
  unfold try_catch, bind, ret.
  destruct (truthy (trim (addedCode hunk))); [|reflexivity].
  destruct (detectPatterns _ _ _ w) as [[p|e] w']; reflexivity.
Qed.

(** The hunk a block leaves in the record. *)
Lemma runSummary_returns options hunk filename result w :
  exists r w', runSummary options hunk filename result w = (Returned r, w')
               /\ HunkAnalysis.hunk r = HunkAnalysis.hunk result
               /\ HunkAnalysis.complexity r = HunkAnalysis.complexity result
               /\ HunkAnalysis.patterns r = HunkAnalysis.patterns result.
Proof.
  rewrite runSummary_eq. destruct (Options.summary options); [|eauto 6].
  destruct (generateSummary _ _ _ _ w) as [[s|e] w']; eauto 6.
Qed.

Lemma runPatterns_returns options hunk filename result w :
  exists r w', runPatterns options hunk filename result w = (Returned r, w')
               /\ HunkAnalysis.hunk r = HunkAnalysis.hunk result
               /\ HunkAnalysis.complexity r = HunkAnalysis.complexity result
               /\ HunkAnalysis.summary r = HunkAnalysis.summary result.
Proof.
  rewrite runPatterns_eq. destruct (Options.patterns options); [|eauto 6].
  destruct (truthy (trim (addedCode hunk))); [|eauto 6].
  destruct (detectPatterns _ _ _ w) as [[p|e] w']; eauto 6.
Qed.

Lemma analyzeHunk_eq hunk filename options w :
  analyzeHunk hunk filename options w =
  let '(startTime, w1) := now w in
  match runSummary options hunk filename
          (runComplexity options hunk (emptyAnalysis hunk)) w1 with
  | (Returned r1, w2) =>
      match runPatterns options hunk filename r1 w2 with
      | (Returned r2, w3) =>
          let '(endTime, w4) := now w3 in
          (Returned (setProcessingTime (endTime - startTime) r2), w4)
      | (Thrown e, w3) => (Thrown e, w3)
      end
  | (Thrown e, w2) => (Thrown e, w2)
  end.
Proof.
  unfold analyzeHunk, bind, dateNow, ret.
  destruct (now w) as [startTime w1].
  destruct (runSummary _ _ _ _ w1) as [[r1|e] w2]; [|reflexivity].
  destruct (runPatterns _ _ _ r1 w2) as [[r2|e] w3]; [|reflexivity].
  destruct (now w3) as [endTime w4]. reflexivity.
Qed.

(** [analyzeHunk] never throws, and the record it returns is about its hunk. *)
Lemma analyzeHunk_returns hunk filename options w :
  exists a w', analyzeHunk hunk filename options w = (Returned a, w')
               /\ HunkAnalysis.hunk a = hunk.
Proof.
  rewrite analyzeHunk_eq. destruct (now w) as [startTime w1].
  destruct (runSummary_returns options hunk filename
              (runComplexity options hunk (emptyAnalysis hunk)) w1)
    as (r1 & w2 & -> & Hh1 & _).
  destruct (runPatterns_returns options hunk filename r1 w2)
    as (r2 & w3 & -> & Hh2 & _).
  destruct (now w3) as [endTime w4].
  eexists _, _. split; [reflexivity|].
  cbn [setProcessingTime HunkAnalysis.hunk]. rewrite Hh2, Hh1.
  unfold runComplexity.
  destruct (Options.complexity options); [|reflexivity].
  destruct (truthy (trim (allContent hunk))); reflexivity.
Qed.

(** *** The two loops *)

Lemma hunkLoop_all maxHunks filename options (hs : list DiffHunk.t) :
  forall acc t p w,
    match maxHunks with
    | NaN => True
    | Int m => (p + Z.of_nat (List.length hs) <= m)%Z
    end ->
    exists analyses w',
      hunkLoop maxHunks filename options hs (acc, t, p) w
      = (Returned ((acc ++ analyses)%list,
                   (t + Z.of_nat (List.length hs))%Z,
                   (p + Z.of_nat (List.length hs))%Z), w')
      /\ map HunkAnalysis.hunk analyses = hs
      /\ Forall (producedBy options) analyses.
Proof.
  induction hs as [|hunk hs IH]; intros acc t p w Hroom.
  - exists [], w. cbn [hunkLoop List.length Z.of_nat].
    rewrite app_nil_r, !Z.add_0_r. repeat split. constructor.
  - cbn [hunkLoop].
    assert (Hge : jsge (Int p) maxHunks = false).
    { destruct maxHunks as [|m]; [reflexivity|].
      cbn [jsge]. apply Z.leb_gt. cbn [List.length] in Hroom. lia. }
    rewrite Hge. unfold bind at 1.
    destruct (analyzeHunk_returns hunk filename options w) as (a & w1 & Ea & Hh).
    rewrite Ea.
    destruct (IH (acc ++ [a])%list (t + 1)%Z (p + 1)%Z w1) as (rest & w2 & E & Hm & Hp).
    { destruct maxHunks as [|m]; [exact I|]. cbn [List.length] in Hroom. lia. }
    exists (a :: rest), w2. rewrite E. split; [|split].
    + rewrite <- app_assoc. cbn [app List.length].
      rewrite Nat2Z.inj_succ.
      replace (t + Z.succ (Z.of_nat (List.length hs)))%Z
        with (t + 1 + Z.of_nat (List.length hs))%Z by lia.
      replace (p + Z.succ (Z.of_nat (List.length hs)))%Z
        with (p + 1 + Z.of_nat (List.length hs))%Z by lia.
      reflexivity.
    + cbn [map]. now rewrite Hh, Hm.
    + constructor; [|exact Hp].
      exists filename, w, w1. now rewrite Hh.
Qed.

Lemma hunkLoop_break m filename options (hs : list DiffHunk.t) acc t p w :
  (m <= p)%Z ->
  hunkLoop (Int m) filename options hs (acc, t, p) w = (Returned (acc, t, p), w).
Proof.
  intros Hmp. destruct hs as [|hunk hs]; [reflexivity|].
  cbn [hunkLoop jsge]. now rewrite (proj2 (Z.leb_le m p) Hmp).
Qed.

Lemma firstn_min {A : Type} (n : nat) (l : list A) :
  firstn (Nat.min n (List.length l)) l = firstn n l.
Proof.
  destruct (Nat.le_ge_cases n (List.length l)) as [H|H].
  - now rewrite Nat.min_l.
  - rewrite Nat.min_r by exact H. now rewrite firstn_all, firstn_all2.
Qed.

(** The inner loop on the slice of one file. *)
Lemma fileHunks_spec maxHunks filename options (hs : list DiffHunk.t) t p w :
  exists analyses w',
    hunkLoop maxHunks filename options
      (slice0 hs (jssub maxHunks (Int p))) ([], t, p) w
    = (Returned (analyses,
                 (t + Z.of_nat (List.length analyses))%Z,
                 (p + Z.of_nat (List.length analyses))%Z), w')
    /\ map HunkAnalysis.hunk analyses = firstn (room maxHunks p) hs
    /\ Forall (producedBy options) analyses.
Proof.
  destruct maxHunks as [|m].
  - exists [], w. cbn [jssub room]. unfold slice0.
    change (0 <? 0)%Z with false. cbv iota.
    replace (Z.min 0 (Z.of_nat (List.length hs))) with 0%Z by lia.
    cbn. rewrite !Z.add_0_r. repeat split. constructor.
  - cbn [jssub room]. unfold slice0.
    destruct (Z.ltb_spec (m - p) 0) as [Hneg|Hpos].
    + exists [], w. rewrite hunkLoop_break by lia.
      cbn [List.length Z.of_nat]. rewrite !Z.add_0_r.
      replace (Z.to_nat (m - p)) with 0%nat by lia.
      repeat split. constructor.
    + replace (Z.to_nat (Z.min (m - p) (Z.of_nat (List.length hs))))
        with (Nat.min (Z.to_nat (m - p)) (List.length hs)) by lia.
      rewrite firstn_min.
      destruct (hunkLoop_all (Int m) filename options
                  (firstn (Z.to_nat (m - p)) hs) [] t p w)
        as (analyses & w' & E & Hm & Hp).
      { rewrite length_firstn. lia. }
      exists analyses, w'. rewrite E. cbn [app].
      assert (Hlen : List.length analyses
                     = List.length (firstn (Z.to_nat (m - p)) hs))
        by (now rewrite <- Hm, length_map).
      rewrite Hlen. repeat split; assumption.
Qed.

Lemma analysesOf_app (xs ys : list FileAnalysis.t) :
  analysesOf (xs ++ ys) = (analysesOf xs ++ analysesOf ys)%list.
Proof. unfold analysesOf. apply flat_map_app. Qed.

Lemma room_after maxHunks p (hs : list DiffHunk.t) :
  room maxHunks
       (p + Z.of_nat (List.length (firstn (room maxHunks p) hs)))
  = (room maxHunks p - List.length hs)%nat.
Proof.
  rewrite length_firstn. destruct maxHunks as [|m]; cbn [room]; lia.
Qed.

Lemma fileLoop_spec maxHunks options (tsFiles : list DiffFile.t) :
  forall fileAnalyses t p w,
    exists fas w',
      fileLoop maxHunks options tsFiles (fileAnalyses, t, p) w
      = (Returned ((fileAnalyses ++ fas)%list,
                   (t + Z.of_nat (List.length (analysesOf fas)))%Z,
                   (p + Z.of_nat (List.length (analysesOf fas)))%Z), w')
      /\ map FileAnalysis.filename fas = map DiffFile.filename tsFiles
      /\ map HunkAnalysis.hunk (analysesOf fas)
         = firstn (room maxHunks p) (hunksOf tsFiles)
      /\ Forall (producedBy options) (analysesOf fas).
Proof.
  induction tsFiles as [|file rest IH]; intros fileAnalyses t p w.
  - exists [], w. cbn. rewrite app_nil_r, !Z.add_0_r, firstn_nil.
    repeat split. constructor.
  - cbn [fileLoop]. unfold bind at 1.
    destruct (fileHunks_spec maxHunks (DiffFile.filename file) options
                (DiffFile.hunks file) t p w)
      as (analyses & w1 & E & Hm & Hp).
    rewrite E.
    set (fa := {| FileAnalysis.filename := DiffFile.filename file;
                  FileAnalysis.hunks := analyses;
                  FileAnalysis.overallComplexity := overallComplexity analyses |}).
    destruct (IH (fileAnalyses ++ [fa])%list
                 (t + Z.of_nat (List.length analyses))%Z
                 (p + Z.of_nat (List.length analyses))%Z w1)
      as (fas & w2 & E2 & Hn & Hm2 & Hp2).
    exists (fa :: fas), w2. rewrite E2.
    assert (Hall : analysesOf (fa :: fas) = (analyses ++ analysesOf fas)%list)
      by reflexivity.
    rewrite Hall, length_app, Nat2Z.inj_add. split; [|split; [|split]].
    + rewrite <- app_assoc. cbn [app]. rewrite !Z.add_assoc. reflexivity.
    + cbn [map]. now rewrite Hn.
    + rewrite map_app, Hm, Hm2.
      change (hunksOf (file :: rest))
        with (DiffFile.hunks file ++ hunksOf rest)%list.
      rewrite firstn_app. f_equal.
      assert (Hlen : List.length analyses
                     = List.length (firstn (room maxHunks p) (DiffFile.hunks file)))
        by (now rewrite <- Hm, length_map).
      rewrite Hlen, room_after. reflexivity.
    + apply Forall_app. split; assumption.
Qed.

Lemma room_0 maxHunks : room maxHunks 0 = budget maxHunks.
Proof. destruct maxHunks as [|m]; cbn; [reflexivity|f_equal; lia]. Qed.

(** The run never throws; what it returns. *)
Lemma runReview_spec (tsFiles : list DiffFile.t) (options : Options.t) w :
  exists r w',
    runReview tsFiles options w = (Returned r, w')
    /\ map FileAnalysis.filename (ReviewResult.files r)
       = map DiffFile.filename tsFiles
    /\ map HunkAnalysis.hunk (analysesOf (ReviewResult.files r))
       = firstn (budget (parseInt (Options.maxHunks options))) (hunksOf tsFiles)
    /\ ReviewResult.totalHunks r
       = Z.of_nat (List.length (analysesOf (ReviewResult.files r)))
    /\ Forall (producedBy options) (analysesOf (ReviewResult.files r))
    /\ ReviewResult.aiCodeLikelihood r
       = aiLikelihood (List.length (allPatterns (ReviewResult.files r))).
Proof.
  unfold runReview, bind, dateNow, ret.
  destruct (now w) as [startTime w1].
  destruct (fileLoop_spec (parseInt (Options.maxHunks options)) options tsFiles
              [] 0%Z 0%Z w1) as (fas & w2 & E & Hn & Hm & Hp).
  rewrite E. cbn [app].
  destruct (now w2) as [endTime w3].
  eexists _, _. split; [reflexivity|].
  cbn [ReviewResult.files ReviewResult.totalHunks ReviewResult.aiCodeLikelihood].
  rewrite room_0 in Hm. repeat split; assumption.
Qed.

Lemma length_flat_map_sum {A B : Type} (f : A -> list B) (l : list A) :
  List.length (flat_map f l) = list_sum (map (fun x => List.length (f x)) l).
Proof.
  induction l as [|x l IH]; [reflexivity|].
  cbn [flat_map map list_sum]. now rewrite length_app, IH.
Qed.

Lemma allPatterns_count (r : ReviewResult.t) :
  List.length (allPatterns (ReviewResult.files r)) = patternCount r.
Proof.
  unfold patternCount, allPatterns.
  rewrite length_flat_map_sum. f_equal. apply map_ext. intros f.
  rewrite length_flat_map_sum. f_equal. apply map_ext. intros a.
  unfold foundIn, findings. destruct (HunkAnalysis.patterns a); reflexivity.
Qed.

Lemma aiLikelihood_cases (n : nat) :
  (aiLikelihood n = high <-> 5 < n)
  /\ (aiLikelihood n = medium <-> 2 < n <= 5)
  /\ (aiLikelihood n = low <-> n <= 2).
Proof.
  unfold aiLikelihood.
  destruct (Nat.ltb_spec 5 n); [|destruct (Nat.ltb_spec 2 n)];
    repeat split; intros; try discriminate; try reflexivity; lia.
Qed.

(** C5. For every list of files and every budget string, the run returns a
    result whose analyses are those of the first [maxHunks] hunks of the
    whole diff, in diff order and counted across files (none when the budget
    is negative or not a number); [totalHunks] is the number of analyses and
    never exceeds a non-negative budget; with 25 hunks and a budget of 20,
    [totalHunks] is 20 and hunks 21 to 25 have no analysis. *)
Theorem budget_is_global (tsFiles : list DiffFile.t) (options : Options.t) w :
  exists r w',
    runReview tsFiles options w = (Returned r, w')
    /\ map HunkAnalysis.hunk (analysesOf (ReviewResult.files r))
       = firstn (budget (parseInt (Options.maxHunks options))) (hunksOf tsFiles)
    /\ ReviewResult.totalHunks r
       = Z.of_nat (List.length (analysesOf (ReviewResult.files r)))
    /\ (forall m, parseInt (Options.maxHunks options) = Int m ->
                  (ReviewResult.totalHunks r <= Z.max 0 m)%Z)
    /\ (Options.maxHunks options = "20" -> List.length (hunksOf tsFiles) = 25 ->
        ReviewResult.totalHunks r = 20%Z
        /\ List.length (analysesOf (ReviewResult.files r)) = 20
        /\ map HunkAnalysis.hunk (analysesOf (ReviewResult.files r))
           = firstn 20 (hunksOf tsFiles)).
Proof.
  destruct (runReview_spec tsFiles options w)
    as (r & w' & E & _ & Hm & Ht & _ & _).
  exists r, w'. split; [exact E|]. split; [exact Hm|]. split; [exact Ht|].
  assert (Hlen : List.length (analysesOf (ReviewResult.files r))
                 = Nat.min (budget (parseInt (Options.maxHunks options)))
                           (List.length (hunksOf tsFiles))).
  { rewrite <- (length_map HunkAnalysis.hunk), Hm. apply length_firstn. }
  split.
  - intros m Hp. rewrite Ht, Hlen, Hp. cbn [budget]. lia.
  - intros H20 H25. rewrite H20 in *.
    change (budget (parseInt "20")) with 20 in *.
    rewrite Ht, Hlen, H25. repeat split. exact Hm.
Qed.

(** C6. For every result the run returns, [aiCodeLikelihood] is decided by
    the total count of pattern findings over all hunks of all files alone:
    [high] exactly when the count is above 5, [medium] exactly when it is
    above 2 and at most 5, [low] exactly when it is at most 2. *)
Theorem likelihood_from_pattern_count (tsFiles : list DiffFile.t)
    (options : Options.t) w :
  exists r w',
    runReview tsFiles options w = (Returned r, w')
    /\ (ReviewResult.aiCodeLikelihood r = high <-> 5 < patternCount r)
    /\ (ReviewResult.aiCodeLikelihood r = medium
        <-> 2 < patternCount r <= 5)
    /\ (ReviewResult.aiCodeLikelihood r = low <-> patternCount r <= 2).
Proof.
  destruct (runReview_spec tsFiles options w)
    as (r & w' & E & _ & _ & _ & _ & Hl).
  exists r, w'. split; [exact E|].
  rewrite Hl, allPatterns_count. apply aiLikelihood_cases.
Qed.

(** C1 (amended). With the three analyzers on and non-blank added and
    removed content, when the call for the summary throws, [analyzeHunk]
    still returns: [summary] is absent, [complexity] holds the analysis of
    the added and removed lines, and [patterns] holds what the External
    Reviewer's pattern call returns, or is absent when that call throws too;
    and every run returns a result covering the hunks within the budget. *)
Theorem reviewer_failure_is_local (hunk : DiffHunk.t) (filename : string)
    (options : Options.t) (w : World) (e : Exn) (w2 : World) :
  Options.summary options = true -> Options.patterns options = true ->
  Options.complexity options = true ->
  truthy (trim (allContent hunk)) = true ->
  truthy (trim (addedCode hunk)) = true ->
  generateSummary (DiffHunk.content hunk)
    (if truthy (DiffHunk.context hunk) then DiffHunk.context hunk else "")
    filename (Options.model options) (snd (now w)) = (Thrown e, w2) ->
  (exists a w',
      analyzeHunk hunk filename options w = (Returned a, w')
      /\ HunkAnalysis.hunk a = hunk
      /\ HunkAnalysis.summary a = None
      /\ HunkAnalysis.complexity a
         = Some (analyzeComplexity (allContent hunk) thresholds)
      /\ HunkAnalysis.patterns a
         = match fst (detectPatterns (addedCode hunk) filename
                        (Options.model options) w2) with
           | Returned p => Some p
           | Thrown _ => None
           end)
  /\ (forall tsFiles w0,
        exists r w',
          runReview tsFiles options w0 = (Returned r, w')
          /\ map HunkAnalysis.hunk (analysesOf (ReviewResult.files r))
             = firstn (budget (parseInt (Options.maxHunks options))) (hunksOf tsFiles)
          /\ Forall (producedBy options) (analysesOf (ReviewResult.files r))).
Proof.
  intros Hs Hp Hc Hall Hadd Hthrow. split.
  - rewrite analyzeHunk_eq. destruct (now w) as [startTime w1].
    cbn [snd] in Hthrow.
    rewrite runSummary_eq, Hs, Hthrow.
    rewrite runPatterns_eq, Hp, Hadd.
    unfold runComplexity. rewrite Hc, Hall.
    destruct (detectPatterns (addedCode hunk) filename (Options.model options) w2)
      as [[p|e'] w3]; destruct (now w3) as [endTime w4];
      eexists _, _; repeat split.
  - intros tsFiles w0.
    destruct (runReview_spec tsFiles options w0)
      as (r & w' & E & _ & Hm & _ & Hprod & _).
    exists r, w'. repeat split; assumption.
Qed.

End Facts.

Lemma reviewer_failure_is_local_witness :
  exists a w',
    @analyzeHunk summaryDown (addedHunk 1) "src/a.ts" (allOn "20") 0%Z
    = (Returned a, w')
    /\ HunkAnalysis.summary a = None
    /\ HunkAnalysis.complexity a <> None
    /\ HunkAnalysis.patterns a <> None.
Proof.
  destruct (@reviewer_failure_is_local summaryDown (addedHunk 1) "src/a.ts"
              (allOn "20") 0%Z "network error" 1%Z
              eq_refl eq_refl eq_refl eq_refl eq_refl eq_refl)
    as [(a & w' & E & _ & Hs & Hc & Hp) _].
  exists a, w'. split; [exact E|]. split; [exact Hs|].
  split; [rewrite Hc|rewrite Hp]; discriminate.
Defined.

(** C1 as stated fails: with the network down both calls of the External
    Reviewer throw, and the hunk's [patterns] field is absent although all
    three analyzers are on and the added content is not blank. *)
Lemma reviewer_down_leaves_patterns_absent :
  exists a w',
    @analyzeHunk offline (addedHunk 1) "src/a.ts" (allOn "20") 0%Z
    = (Returned a, w')
    /\ (exists e w2,
          @generateSummary offline (DiffHunk.content (addedHunk 1)) ""
            "src/a.ts" (Options.model (allOn "20")) 1%Z = (Thrown e, w2))
    /\ truthy (trim (allContent (addedHunk 1))) = true
    /\ truthy (trim (addedCode (addedHunk 1))) = true
    /\ HunkAnalysis.summary a = None
    /\ HunkAnalysis.complexity a <> None
    /\ HunkAnalysis.patterns a = None.
Proof.
  eexists _, _. split; [vm_compute; reflexivity|].
  split; [eexists _, _; reflexivity|].
  repeat split. discriminate.
Qed.

(** Scenario 3 through the theorem: 15 + 10 hunks, budget 20. *)
Lemma budget_is_global_witness :
  exists r w',
    @runReview online twentyFiveHunks (allOn "20") 0%Z = (Returned r, w')
    /\ ReviewResult.totalHunks r = 20%Z
    /\ List.length (analysesOf (ReviewResult.files r)) = 20
    /\ map HunkAnalysis.hunk (analysesOf (ReviewResult.files r))
       = firstn 20 (hunksOf twentyFiveHunks).
Proof.
  destruct (@budget_is_global online twentyFiveHunks (allOn "20") 0%Z)
    as (r & w' & E & _ & _ & _ & H).
  exists r, w'. split; [exact E|]. apply H; reflexivity.
Defined.

(** Scenario 3 by computation: the analyses per file. *)
Example budget_20_of_25 :
  match fst (@runReview online twentyFiveHunks (allOn "20") 0%Z) with
  | Returned r =>
      ReviewResult.totalHunks r = 20%Z
      /\ map (fun f => List.length (FileAnalysis.hunks f))
             (ReviewResult.files r) = [15; 5]
  | Thrown _ => False
  end.
Proof. vm_compute. split; reflexivity. Qed.

End ReviewProps.
